(** * Activation of the C# extension

    A shallow embedding of [src/omnisharp/extension.ts]: the [activate]
    function that wires the OmniSharp server to the editor.  The file is
    event-driven glue, so the embedding is a small state-and-writer monad:
    the state holds what the closures of [activate] share
    ([localDisposables], the persisted workspace state, the listeners
    registered on the server, the promises still in flight), and the writer
    records every call made into a collaborator (the editor API, the
    telemetry reporter, the output channel, the server).  Events delivered by
    the event loop (server start/stop, settlement of a promise) are the
    inputs of [step]. *)

From stdpp Require Import gmap strings list fin_maps sorting.
Local Open Scope string_scope.
Local Open Scope list_scope.
Local Open Scope stdpp_scope.

(** ** JavaScript values held by the persisted state and the configuration *)

Module Js.

Inductive Value :=
| Bool (b : bool)
| Str (s : string)
| Num (n : Z)
| Null.

#[global] Instance Value_eq_dec : EqDecision Value.
Proof. solve_decision. Defined.

(** [!x] in the source tests JavaScript truthiness; a missing key reads as
    [undefined]. *)
Definition truthy (v : option Value) : bool :=
  match v with
  | None => false
  | Some (Bool b) => b
  | Some (Str s) => negb (String.eqb s "")
  | Some (Num n) => negb (Z.eqb n 0)
  | Some Null => false
  end.

End Js.

(** ** Helpers imported from ['../common'] *)

Module Common.

(** Modelled from the spec: [sum] is imported from ['../common'], which is
    not among the sources; the measures are described as the sum, over the
    projects, of a number computed for each project.  It is written as the
    left-to-right reduction starting from 0. *)
Definition sum {T : Type} (arr : list T) (selector : T -> nat) : nat :=
  fold_left (fun prev curr => prev + selector curr) arr 0.

(** Modelled from the spec: [safeLength] is imported from ['../common'],
    which is not among the sources; it is the length of the array, and 0
    when the array is absent. *)
Definition safeLength {T : Type} (arr : option (list T)) : nat :=
  match arr with
  | Some a => length a
  | None => 0
  end.

End Common.

(** ** The workspace-information response of the server *)

Module Protocol.

(** Modelled from the spec: the response types are declared in
    ['./protocol'], which is not among the sources.  Only the members read by
    [activate] are kept: the project lists, the source files of a project
    (possibly absent) and the Unity flag; [Path] identifies a project. *)
Record DotNetProject := {
  dotnet_Path : string;
  dotnet_SourceFiles : option (list string)
}.

Record DotNetWorkspaceInformation := {
  dotnet_Projects : list DotNetProject
}.

Record MSBuildProject := {
  msbuild_Path : string;
  msbuild_SourceFiles : option (list string);
  msbuild_TargetFrameworks : list string;
  IsUnityProject : bool
}.

Record MsBuildWorkspaceInformation := {
  msbuild_Projects : list MSBuildProject
}.

Record WorkspaceInformationResponse := {
  MsBuild : option MsBuildWorkspaceInformation;
  DotNet : option DotNetWorkspaceInformation
}.

End Protocol.

Import Protocol.

(** ** The editor API as seen from [activate] *)

(** One constructor per [vscode.languages.register...] entry point used. *)
Inductive Feature :=
| DefinitionProvider
| ImplementationProvider
| CodeLensProvider
| DocumentHighlightProvider
| DocumentSymbolProvider
| ReferenceProvider
| HoverProvider
| RenameProvider
| DocumentRangeFormattingEditProvider
| OnTypeFormattingEditProvider
| CompletionItemProvider
| WorkspaceSymbolProvider
| SignatureHelpProvider
| CodeActionsProvider.

#[global] Instance Feature_eq_dec : EqDecision Feature.
Proof. solve_decision. Defined.

Record DocumentSelector := {
  language : option string;
  scheme : option string
}.

#[global] Instance DocumentSelector_eq_dec : EqDecision DocumentSelector.
Proof. solve_decision. Defined.

(** A call [vscode.languages.registerX(selector, provider, ...triggers)];
    [selector] is [None] for the one entry point that takes none. *)
Record Registration := {
  feature : Feature;
  selector : option DocumentSelector;
  triggerCharacters : list string
}.

#[global] Instance Registration_eq_dec : EqDecision Registration.
Proof. solve_decision. Defined.

(** What a member of [localDisposables] is. *)
Inductive DisposableKind :=
| Registered (r : Registration)
| DefinitionMetadataDocumentProvider
| TestManager
| CodeActionProvider
| ReportDiagnostics
| ForwardChanges.

#[global] Instance DisposableKind_eq_dec : EqDecision DisposableKind.
Proof. solve_decision. Defined.

(** Objects are told apart by the handle they received when created. *)
Record Disposable := {
  handle : nat;
  what : DisposableKind
}.

#[global] Instance Disposable_eq_dec : EqDecision Disposable.
Proof. solve_decision. Defined.

(** [AddAssetResult] of ['../assets']; [activate] only tests for [Disable]. *)
Inductive AddAssetResult :=
| NotApplicable
| Done
| Disable
| Cancelled.

Record Options := {
  useFormatting : bool;
  autoStart : bool
}.

(** Settlement of a promise. *)
Inductive Outcome (A : Type) :=
| Fulfilled (value : A)
| Rejected (reason : string).
Arguments Fulfilled {A} value.
Arguments Rejected {A} reason.

(** Calls made into collaborators, in the order they are made. *)
Inductive HostCall :=
| RegisterProvider (h : nat) (r : Registration)
| CreateDisposable (h : nat) (k : DisposableKind)
| RegisterMetadataProvider (h : nat)
| Dispose (h : nat)
| AddAssetsIfNecessary (p : nat)
| RequestWorkspaceInformation (p : nat)
| ShowWarningMessage (p : nat) (message : string) (item : string)
| ChannelAppendLine (line : string)
| ChannelShow
| SendTelemetryEvent (eventName : string) (measures : gmap string nat)
| WorkspaceStateUpdate (key : string) (value : Js.Value)
| ServerAutoStart (path : option Js.Value)
| RegisterCommands
| ReportStatus
| RegisterDebugConfigurationProvider (debugType : string)
| UnhandledRejection (reason : string).

#[global] Instance HostCall_eq_dec : EqDecision HostCall.
Proof. solve_decision. Defined.

(** The callbacks passed to [server.onServerStart], [server.onServerStop]
    and [server.onBeforeServerStart], named after what they do. *)
Inductive StartListener :=
| RegisterLanguageFeatures
| AddAssets
| ProjectJsonWarning
| WorkspaceTelemetry
| ResolveActivation.

#[global] Instance StartListener_eq_dec : EqDecision StartListener.
Proof. solve_decision. Defined.

Inductive StopListener :=
| DisposeLanguageFeatures.

Inductive BeforeStartListener :=
| StoreLastSolutionPathOrFolder.

(** The callbacks passed to [then]; [TelemetryThen] closes over the
    [measures] object created by the listener. *)
Inductive Continuation :=
| AssetsThen
| ProjectJsonWarningThen
| TelemetryThen (measures : gmap string nat)
| WarningItemThen.

(** What the event loop delivers to the extension after [activate]. *)
Inductive Event :=
| ServerStart (e : string)
| ServerStop
| BeforeServerStart (path : string)
| AssetsSettled (p : nat) (o : Outcome AddAssetResult)
| WorkspaceInformationSettled (p : nat) (o : Outcome WorkspaceInformationResponse)
| WarningMessageSettled (p : nat) (o : Outcome (option string)).

(** ** State shared by the closures of [activate] *)

Record State := {
  localDisposables : list Disposable;
  workspaceState : gmap string Js.Value;
  options : Options;
  serverStartListeners : list StartListener;
  serverStopListeners : list StopListener;
  beforeServerStartListeners : list BeforeStartListener;
  pending : list (nat * Continuation);
  nextHandle : nat;
  activation : option string
}.

Definition with_localDisposables (f : list Disposable -> list Disposable) (s : State) : State :=
  {| localDisposables := f (localDisposables s);
     workspaceState := workspaceState s;
     options := options s;
     serverStartListeners := serverStartListeners s;
     serverStopListeners := serverStopListeners s;
     beforeServerStartListeners := beforeServerStartListeners s;
     pending := pending s;
     nextHandle := nextHandle s;
     activation := activation s |}.

Definition with_workspaceState (f : gmap string Js.Value -> gmap string Js.Value) (s : State) : State :=
  {| localDisposables := localDisposables s;
     workspaceState := f (workspaceState s);
     options := options s;
     serverStartListeners := serverStartListeners s;
     serverStopListeners := serverStopListeners s;
     beforeServerStartListeners := beforeServerStartListeners s;
     pending := pending s;
     nextHandle := nextHandle s;
     activation := activation s |}.

Definition with_serverStartListeners (f : list StartListener -> list StartListener) (s : State) : State :=
  {| localDisposables := localDisposables s;
     workspaceState := workspaceState s;
     options := options s;
     serverStartListeners := f (serverStartListeners s);
     serverStopListeners := serverStopListeners s;
     beforeServerStartListeners := beforeServerStartListeners s;
     pending := pending s;
     nextHandle := nextHandle s;
     activation := activation s |}.

Definition with_serverStopListeners (f : list StopListener -> list StopListener) (s : State) : State :=
  {| localDisposables := localDisposables s;
     workspaceState := workspaceState s;
     options := options s;
     serverStartListeners := serverStartListeners s;
     serverStopListeners := f (serverStopListeners s);
     beforeServerStartListeners := beforeServerStartListeners s;
     pending := pending s;
     nextHandle := nextHandle s;
     activation := activation s |}.

Definition with_beforeServerStartListeners (f : list BeforeStartListener -> list BeforeStartListener) (s : State) : State :=
  {| localDisposables := localDisposables s;
     workspaceState := workspaceState s;
     options := options s;
     serverStartListeners := serverStartListeners s;
     serverStopListeners := serverStopListeners s;
     beforeServerStartListeners := f (beforeServerStartListeners s);
     pending := pending s;
     nextHandle := nextHandle s;
     activation := activation s |}.

Definition with_pending (f : list (nat * Continuation) -> list (nat * Continuation)) (s : State) : State :=
  {| localDisposables := localDisposables s;
     workspaceState := workspaceState s;
     options := options s;
     serverStartListeners := serverStartListeners s;
     serverStopListeners := serverStopListeners s;
     beforeServerStartListeners := beforeServerStartListeners s;
     pending := f (pending s);
     nextHandle := nextHandle s;
     activation := activation s |}.

Definition with_nextHandle (f : nat -> nat) (s : State) : State :=
  {| localDisposables := localDisposables s;
     workspaceState := workspaceState s;
     options := options s;
     serverStartListeners := serverStartListeners s;
     serverStopListeners := serverStopListeners s;
     beforeServerStartListeners := beforeServerStartListeners s;
     pending := pending s;
     nextHandle := f (nextHandle s);
     activation := activation s |}.

Definition with_activation (f : option string -> option string) (s : State) : State :=
  {| localDisposables := localDisposables s;
     workspaceState := workspaceState s;
     options := options s;
     serverStartListeners := serverStartListeners s;
     serverStopListeners := serverStopListeners s;
     beforeServerStartListeners := beforeServerStartListeners s;
     pending := pending s;
     nextHandle := nextHandle s;
     activation := f (activation s) |}.

(** ** The monad: state passing plus the log of collaborator calls *)

Definition M (A : Type) : Type := State -> A * State * list HostCall.

#[global] Instance M_ret : MRet M := fun A a s => (a, s, []).

#[global] Instance M_bind : MBind M := fun A B k m s =>
  let '(a, s1, w1) := m s in
  let '(b, s2, w2) := k a s1 in
  (b, s2, w1 ++ w2).

Definition get : M State := fun s => (s, s, []).
Definition modify (f : State -> State) : M unit := fun s => (tt, f s, []).
Definition call (c : HostCall) : M unit := fun s => (tt, s, [c]).

(** State after, and calls made by, a computation. *)
Definition exec {A : Type} (m : M A) (s : State) : State := (m s).1.2.
Definition calls {A : Type} (m : M A) (s : State) : list HostCall := (m s).2.

(** [for (const x of xs) f(x)]. *)
Fixpoint forEach {A : Type} (f : A -> M unit) (xs : list A) : M unit :=
  match xs with
  | [] => mret tt
  | x :: xs => f x;; forEach f xs
  end.

(** A new object (a disposable or a promise) gets the next handle. *)
Definition fresh : M nat :=
  fun s => (nextHandle s, with_nextHandle S s, []).

(** [promise.then(onFulfilled)], once the promise is settled: no second
    argument is passed, so a rejection reaches no callback of this file. *)
Definition then_ {A : Type} (o : Outcome A) (onFulfilled : A -> M unit) : M unit :=
  match o with
  | Fulfilled value => onFulfilled value
  | Rejected reason => call (UnhandledRejection reason)
  end.

(** The pending promise [p] will run [k] when it is fulfilled. *)
Definition await (p : nat) (k : Continuation) : M unit :=
  modify (with_pending (fun ps => ps ++ [(p, k)])).

Fixpoint awaiting (p : nat) (ps : list (nat * Continuation)) : option Continuation :=
  match ps with
  | [] => None
  | (q, k) :: ps => if Nat.eqb p q then Some k else awaiting p ps
  end.

(** A promise settles once. *)
Definition settled (p : nat) : M unit :=
  modify (with_pending (filter (fun qk => qk.1 <> p))).

(** ** [activate] and the callbacks it installs *)

Section Activate.

(** [utils.isNetCoreProject] and the [scheme] member of the
    [DefinitionMetadataDocumentProvider] belong to modules that are not among
    the sources; they are left abstract. *)
Variable isNetCoreProject : MSBuildProject -> bool.
Variable metadataScheme : string.

(** Lines 39-42. *)
Definition documentSelector : DocumentSelector :=
  {| language := Some "csharp"; scheme := Some "file" |}.

Definition metadataSelector : DocumentSelector :=
  {| language := None; scheme := Some metadataScheme |}.

(** [localDisposables.push(d)]. *)
Definition push (d : Disposable) : M unit :=
  modify (with_localDisposables (fun l => l ++ [d])).

(** [vscode.languages.registerX(...)] returns a new disposable. *)
Definition register (f : Feature) (sel : option DocumentSelector)
    (triggers : list string) : M Disposable :=
  h ← fresh;
  let r := {| feature := f; selector := sel; triggerCharacters := triggers |} in
  call (RegisterProvider h r);;
  mret {| handle := h; what := Registered r |}.

(** [new X(...)], [reportDiagnostics(...)] and [forwardChanges(...)] return a
    new disposable. *)
Definition create (k : DisposableKind) : M Disposable :=
  h ← fresh;
  call (CreateDisposable h k);;
  mret {| handle := h; what := k |}.

(** [localDisposables.push(<expression creating a disposable>)]. *)
Definition pushNew (m : M Disposable) : M unit :=
  d ← m; push d.

(** Lines 52-82: the first listener on server start. *)
Definition registerLanguageFeatures : M unit :=
  definitionMetadataDocumentProvider ← create DefinitionMetadataDocumentProvider;
  call (RegisterMetadataProvider (handle definitionMetadataDocumentProvider));;
  push definitionMetadataDocumentProvider;;
  pushNew (register DefinitionProvider (Some documentSelector) []);;
  pushNew (register DefinitionProvider (Some metadataSelector) []);;
  pushNew (register ImplementationProvider (Some documentSelector) []);;
  testManager ← create TestManager;
  push testManager;;
  pushNew (register CodeLensProvider (Some documentSelector) []);;
  pushNew (register DocumentHighlightProvider (Some documentSelector) []);;
  pushNew (register DocumentSymbolProvider (Some documentSelector) []);;
  pushNew (register ReferenceProvider (Some documentSelector) []);;
  pushNew (register HoverProvider (Some documentSelector) []);;
  pushNew (register RenameProvider (Some documentSelector) []);;
  s ← get;
  (if useFormatting (options s) then
     pushNew (register DocumentRangeFormattingEditProvider (Some documentSelector) []);;
     pushNew (register OnTypeFormattingEditProvider (Some documentSelector) ["}"; ";"])
   else mret tt);;
  pushNew (register CompletionItemProvider (Some documentSelector) ["."; " "]);;
  pushNew (register WorkspaceSymbolProvider None []);;
  pushNew (register SignatureHelpProvider (Some documentSelector) ["("; ","]);;
  codeActionProvider ← create CodeActionProvider;
  push codeActionProvider;;
  pushNew (register CodeActionsProvider (Some documentSelector) []);;
  pushNew (create ReportDiagnostics);;
  pushNew (create ForwardChanges).

(** Lines 84-87: [vscode.Disposable.from(...localDisposables).dispose()]
    calls [dispose] on every member of the list, in order. *)
Definition disposeLanguageFeatures : M unit :=
  s ← get;
  forEach (fun d => call (Dispose (handle d))) (localDisposables s).

(** [context.workspaceState.update(key, value)]. *)
Definition workspaceStateUpdate (key : string) (value : Js.Value) : M unit :=
  modify (with_workspaceState (insert key value));;
  call (WorkspaceStateUpdate key value).

(** Lines 93-100. *)
Definition addAssets : M unit :=
  p ← fresh;
  call (AddAssetsIfNecessary p);;
  await p AssetsThen.

(** Lines 95-99, the callback. *)
Definition assetsThen (result : AddAssetResult) : M unit :=
  match result with
  | Disable => workspaceStateUpdate "assetPromptDisabled" (Js.Bool true)
  | _ => mret tt
  end.

Definition shortMessage : string :=
  "project.json is no longer a supported project format for .NET Core applications.".

Definition detailedMessage : string :=
  "Warning: project.json is no longer a supported project format for .NET Core applications. Update to the latest version of .NET Core (https://aka.ms/netcoredownload) and use 'dotnet migrate' to upgrade your project (see https://aka.ms/netcoremigrate for details).".

(** Lines 107-121. *)
Definition projectJsonWarning : M unit :=
  p ← fresh;
  call (RequestWorkspaceInformation p);;
  await p ProjectJsonWarningThen.

(** [workspaceInfo.DotNet && workspaceInfo.DotNet.Projects.length > 0]. *)
Definition hasProjectJson (workspaceInfo : WorkspaceInformationResponse) : bool :=
  match DotNet workspaceInfo with
  | Some dotnet => (0 <? length (dotnet_Projects dotnet))%nat
  | None => false
  end.

(** [workspaceInfo.MsBuild && workspaceInfo.MsBuild.Projects.length > 0]. *)
Definition hasMsBuild (workspaceInfo : WorkspaceInformationResponse) : bool :=
  match MsBuild workspaceInfo with
  | Some msbuild => (0 <? length (msbuild_Projects msbuild))%nat
  | None => false
  end.

(** Lines 109-120, the callback. *)
Definition projectJsonWarningThen (workspaceInfo : WorkspaceInformationResponse) : M unit :=
  if hasProjectJson workspaceInfo then
    q ← fresh;
    call (ShowWarningMessage q shortMessage "More Detail");;
    await q WarningItemThen
  else mret tt.

(** Lines 115-118, the callback. *)
Definition warningItemThen (item : option string) : M unit :=
  call (ChannelAppendLine detailedMessage);;
  call ChannelShow.

(** Lines 125-146: the listener creates the [measures] object and asks for
    the workspace information. *)
Definition workspaceTelemetry : M unit :=
  let measures : gmap string nat := ∅ in
  p ← fresh;
  call (RequestWorkspaceInformation p);;
  await p (TelemetryThen measures).

(** Lines 130-140: the assignments to [measures]. *)
Definition fillMeasures (measures : gmap string nat)
    (workspaceInfo : WorkspaceInformationResponse) : gmap string nat :=
  let measures :=
    match DotNet workspaceInfo with
    | Some dotnet =>
        if (0 <? length (dotnet_Projects dotnet))%nat then
          let measures :=
            <["projectjson.projectcount" := length (dotnet_Projects dotnet)]> measures in
          <["projectjson.filecount" :=
              Common.sum (dotnet_Projects dotnet)
                (fun p => Common.safeLength (dotnet_SourceFiles p))]> measures
        else measures
    | None => measures
    end in
  match MsBuild workspaceInfo with
  | Some msbuild =>
      if (0 <? length (msbuild_Projects msbuild))%nat then
        let measures :=
          <["msbuild.projectcount" := length (msbuild_Projects msbuild)]> measures in
        let measures :=
          <["msbuild.filecount" :=
              Common.sum (msbuild_Projects msbuild)
                (fun p => Common.safeLength (msbuild_SourceFiles p))]> measures in
        let measures :=
          <["msbuild.unityprojectcount" :=
              Common.sum (msbuild_Projects msbuild)
                (fun p => if IsUnityProject p then 1 else 0)]> measures in
        <["msbuild.netcoreprojectcount" :=
            Common.sum (msbuild_Projects msbuild)
              (fun p => if isNetCoreProject p then 1 else 0)]> measures
      else measures
  | None => measures
  end.

(** Lines 129-145, the callback. *)
Definition telemetryThen (measures : gmap string nat)
    (workspaceInfo : WorkspaceInformationResponse) : M unit :=
  call (SendTelemetryEvent "OmniSharp.Start" (fillMeasures measures workspaceInfo)).

(** Line 149. *)
Definition storeLastSolutionPathOrFolder (path : string) : M unit :=
  workspaceStateUpdate "lastSolutionPathOrFolder" (Js.Str path).

(** Line 166: [resolve(e)]; resolving a promise that is already resolved
    changes nothing. *)
Definition resolve (e : string) : M unit :=
  modify (with_activation (fun r =>
    match r with
    | None => Some e
    | Some _ => r
    end)).

(** Modelled from the spec: the server object of ['./server'] is not among
    the sources; it exposes the lifecycle events [onServerStart],
    [onServerStop] and [onBeforeServerStart], and a callback passed to one of
    them is added to the listeners of that event. *)
Definition onServerStart (l : StartListener) : M unit :=
  modify (with_serverStartListeners (fun ls => ls ++ [l])).

Definition onServerStop (l : StopListener) : M unit :=
  modify (with_serverStopListeners (fun ls => ls ++ [l])).

Definition onBeforeServerStart (l : BeforeStartListener) : M unit :=
  modify (with_beforeServerStartListeners (fun ls => ls ++ [l])).

(** Lines 38-167; [csharpConfig] is [vscode.workspace.getConfiguration('csharp')]. *)
Definition activate (csharpConfig : gmap string Js.Value) : M unit :=
  onServerStart RegisterLanguageFeatures;;
  onServerStop DisposeLanguageFeatures;;
  call RegisterCommands;;
  call ReportStatus;;
  context ← get;
  (if negb (Js.truthy (workspaceState context !! "assetPromptDisabled"))
   then onServerStart AddAssets
   else mret tt);;
  (if negb (Js.truthy (csharpConfig !! "suppressProjectJsonWarning"))
   then onServerStart ProjectJsonWarning
   else mret tt);;
  onServerStart WorkspaceTelemetry;;
  onBeforeServerStart StoreLastSolutionPathOrFolder;;
  (if autoStart (options context)
   then call (ServerAutoStart (workspaceState context !! "lastSolutionPathOrFolder"))
   else mret tt);;
  call (RegisterDebugConfigurationProvider "coreclr");;
  onServerStart ResolveActivation.

(** What the host hands to [activate]: the persisted workspace state, the
    ['csharp'] configuration section and the options read from it. *)
Record Host := {
  persisted : gmap string Js.Value;
  csharpConfig : gmap string Js.Value;
  hostOptions : Options
}.

Definition initial (host : Host) : State :=
  {| localDisposables := [];
     workspaceState := persisted host;
     options := hostOptions host;
     serverStartListeners := [];
     serverStopListeners := [];
     beforeServerStartListeners := [];
     pending := [];
     nextHandle := 0;
     activation := None |}.

(** The state when [activate] returns. *)
Definition activated (host : Host) : State :=
  exec (activate (csharpConfig host)) (initial host).

(** ** Delivery of events *)

Definition startListener (e : string) (l : StartListener) : M unit :=
  match l with
  | RegisterLanguageFeatures => registerLanguageFeatures
  | AddAssets => addAssets
  | ProjectJsonWarning => projectJsonWarning
  | WorkspaceTelemetry => workspaceTelemetry
  | ResolveActivation => resolve e
  end.

Definition stopListener (l : StopListener) : M unit :=
  match l with
  | DisposeLanguageFeatures => disposeLanguageFeatures
  end.

Definition beforeStartListener (path : string) (l : BeforeStartListener) : M unit :=
  match l with
  | StoreLastSolutionPathOrFolder => storeLastSolutionPathOrFolder path
  end.

(** One turn of the event loop.  A lifecycle event of the server calls the
    listeners of that event in the order they were added; a settlement runs
    the callback given to [then] on that promise, if the promise is still
    pending, and is ignored otherwise. *)
Definition step (ev : Event) : M unit :=
  match ev with
  | ServerStart e =>
      s ← get; forEach (startListener e) (serverStartListeners s)
  | ServerStop =>
      s ← get; forEach stopListener (serverStopListeners s)
  | BeforeServerStart path =>
      s ← get; forEach (beforeStartListener path) (beforeServerStartListeners s)
  | AssetsSettled p o =>
      s ← get;
      match awaiting p (pending s) with
      | Some AssetsThen => settled p;; then_ o assetsThen
      | _ => mret tt
      end
  | WorkspaceInformationSettled p o =>
      s ← get;
      match awaiting p (pending s) with
      | Some ProjectJsonWarningThen => settled p;; then_ o projectJsonWarningThen
      | Some (TelemetryThen measures) => settled p;; then_ o (telemetryThen measures)
      | _ => mret tt
      end
  | WarningMessageSettled p o =>
      s ← get;
      match awaiting p (pending s) with
      | Some WarningItemThen => settled p;; then_ o warningItemThen
      | _ => mret tt
      end
  end.

Definition run (evs : list Event) : M unit := forEach step evs.

(** The state reached from [activate] by the events [evs], and the calls made
    on the way (those of [activate] excluded). *)
Definition after (host : Host) (evs : list Event) : State :=
  exec (run evs) (activated host).

Definition history (host : Host) (evs : list Event) : list HostCall :=
  calls (run evs) (activated host).

(** ** Vocabulary of the properties *)

(** The members a server start adds to [localDisposables], in order;
    [fmt] is [options.useFormatting]. *)
Definition providerKinds (fmt : bool) : list DisposableKind :=
  [ DefinitionMetadataDocumentProvider;
    Registered {| feature := DefinitionProvider; selector := Some documentSelector; triggerCharacters := [] |};
    Registered {| feature := DefinitionProvider; selector := Some metadataSelector; triggerCharacters := [] |};
    Registered {| feature := ImplementationProvider; selector := Some documentSelector; triggerCharacters := [] |};
    TestManager;
    Registered {| feature := CodeLensProvider; selector := Some documentSelector; triggerCharacters := [] |};
    Registered {| feature := DocumentHighlightProvider; selector := Some documentSelector; triggerCharacters := [] |};
    Registered {| feature := DocumentSymbolProvider; selector := Some documentSelector; triggerCharacters := [] |};
    Registered {| feature := ReferenceProvider; selector := Some documentSelector; triggerCharacters := [] |};
    Registered {| feature := HoverProvider; selector := Some documentSelector; triggerCharacters := [] |};
    Registered {| feature := RenameProvider; selector := Some documentSelector; triggerCharacters := [] |} ]
  ++ (if fmt then
        [ Registered {| feature := DocumentRangeFormattingEditProvider; selector := Some documentSelector; triggerCharacters := [] |};
          Registered {| feature := OnTypeFormattingEditProvider; selector := Some documentSelector; triggerCharacters := ["}"; ";"] |} ]
      else [])
  ++ [ Registered {| feature := CompletionItemProvider; selector := Some documentSelector; triggerCharacters := ["."; " "] |};
       Registered {| feature := WorkspaceSymbolProvider; selector := None; triggerCharacters := [] |};
       Registered {| feature := SignatureHelpProvider; selector := Some documentSelector; triggerCharacters := ["("; ","] |};
       CodeActionProvider;
       Registered {| feature := CodeActionsProvider; selector := Some documentSelector; triggerCharacters := [] |};
       ReportDiagnostics;
       ForwardChanges ].

(** The same members with their handles, the first one being [h]. *)
Definition languageFeatures (h : nat) (fmt : bool) : list Disposable :=
  imap (fun i k => {| handle := i + h; what := k |}) (providerKinds fmt).

(** The collaborator calls made while creating the member [d]. *)
Definition callsOf (d : Disposable) : list HostCall :=
  match what d with
  | Registered r => [RegisterProvider (handle d) r]
  | DefinitionMetadataDocumentProvider =>
      [CreateDisposable (handle d) DefinitionMetadataDocumentProvider;
       RegisterMetadataProvider (handle d)]
  | k => [CreateDisposable (handle d) k]
  end.

Definition featureCalls (h : nat) (fmt : bool) : list HostCall :=
  concat (callsOf <$> languageFeatures h fmt).

(** The listeners on server start once [activate] has returned. *)
Definition startListenersOf (host : Host) : list StartListener :=
  [RegisterLanguageFeatures]
  ++ (if Js.truthy (persisted host !! "assetPromptDisabled") then [] else [AddAssets])
  ++ (if Js.truthy (csharpConfig host !! "suppressProjectJsonWarning") then [] else [ProjectJsonWarning])
  ++ [WorkspaceTelemetry; ResolveActivation].

(** The promises a server start leaves pending, first handle [h]. *)
Definition startPromises (host : Host) : list Continuation :=
  (if Js.truthy (persisted host !! "assetPromptDisabled") then [] else [AssetsThen])
  ++ (if Js.truthy (csharpConfig host !! "suppressProjectJsonWarning") then [] else [ProjectJsonWarningThen])
  ++ [TelemetryThen ∅].

Definition startPending (host : Host) (h : nat) : list (nat * Continuation) :=
  imap (fun i k => (i + h, k)) (startPromises host).

Definition requestOf (pk : nat * Continuation) : HostCall :=
  match pk.2 with
  | AssetsThen => AddAssetsIfNecessary pk.1
  | _ => RequestWorkspaceInformation pk.1
  end.

(** What holds of every state reached after [activate]. *)
Record Consistent (host : Host) (s : State) : Prop := {
  consistent_options : options s = hostOptions host;
  consistent_start : serverStartListeners s = startListenersOf host;
  consistent_stop : serverStopListeners s = [DisposeLanguageFeatures];
  consistent_before : beforeServerStartListeners s = [StoreLastSolutionPathOrFolder];
  consistent_pending : forall p k, (p, k) ∈ pending s -> p < nextHandle s;
  consistent_promises : forall p k, (p, k) ∈ pending s ->
    k ∈ startPromises host \/ k = WarningItemThen;
  consistent_locals : forall d, d ∈ localDisposables s -> handle d < nextHandle s
}.

(** Payload of the first server start among the events. *)
Fixpoint firstServerStart (evs : list Event) : option string :=
  match evs with
  | [] => None
  | ServerStart e :: _ => Some e
  | _ :: evs => firstServerStart evs
  end.

Definition isServerStart (ev : Event) : bool :=
  match ev with
  | ServerStart _ => true
  | _ => false
  end.

Fixpoint countIf {A : Type} (f : A -> bool) (xs : list A) : nat :=
  match xs with
  | [] => 0
  | x :: xs => (if f x then 1 else 0) + countIf f xs
  end.

Definition isTelemetryStart (c : HostCall) : bool :=
  match c with
  | SendTelemetryEvent name _ => String.eqb name "OmniSharp.Start"
  | _ => false
  end.

Definition isTelemetryThen (pk : nat * Continuation) : bool :=
  match pk.2 with
  | TelemetryThen _ => true
  | _ => false
  end.

(** The effects that follow a fulfilled promise: the warning, the telemetry
    event, the update of the persisted state. *)
Definition isDownstream (c : HostCall) : bool :=
  match c with
  | ShowWarningMessage _ _ _ => true
  | SendTelemetryEvent _ _ => true
  | WorkspaceStateUpdate _ _ => true
  | _ => false
  end.

Definition isShowWarning (c : HostCall) : bool :=
  match c with
  | ShowWarningMessage _ _ _ => true
  | _ => false
  end.

(** The registrations, and the handles of the disposables created, among
    some calls. *)
Definition registrationsOf (cs : list HostCall) : list Registration :=
  omap (fun c => match c with RegisterProvider _ r => Some r | _ => None end) cs.

Definition createdHandles (cs : list HostCall) : list nat :=
  omap (fun c =>
    match c with
    | RegisterProvider h _ => Some h
    | CreateDisposable h _ => Some h
    | _ => None
    end) cs.

(** The features registered among some disposables. *)
Definition registeredFeatures (ds : list Disposable) : list Feature :=
  omap (fun d => match what d with Registered r => Some (feature r) | _ => None end) ds.

Definition disposedHandles (cs : list HostCall) : list nat :=
  omap (fun c => match c with Dispose h => Some h | _ => None end) cs.

Definition isFormatting (r : Registration) : bool :=
  match feature r with
  | DocumentRangeFormattingEditProvider => true
  | OnTypeFormattingEditProvider => true
  | _ => false
  end.

(** Nothing but the set of pending promises differs between [s] and [s']. *)
Definition unaffected (s s' : State) : Prop :=
  localDisposables s' = localDisposables s /\
  workspaceState s' = workspaceState s /\
  nextHandle s' = nextHandle s /\
  activation s' = activation s.

(** The selector is the one of C# files from disk, or there is none and the
    feature is the workspace symbol provider. *)
Definition fileSelector (r : Registration) : Prop :=
  match selector r with
  | Some sel => sel = documentSelector
  | None => feature r = WorkspaceSymbolProvider
  end.

(** The persisted state after the updates among some calls. *)
Definition applyUpdates (cs : list HostCall) (ws : gmap string Js.Value) : gmap string Js.Value :=
  fold_left (fun ws c =>
    match c with
    | WorkspaceStateUpdate key value => <[key := value]> ws
    | _ => ws
    end) cs ws.

(** The project lists of a response; an absent section has no project. *)
Definition dotnetProjects (workspaceInfo : WorkspaceInformationResponse) : list DotNetProject :=
  match DotNet workspaceInfo with
  | Some dotnet => dotnet_Projects dotnet
  | None => []
  end.

Definition msbuildProjects (workspaceInfo : WorkspaceInformationResponse) : list MSBuildProject :=
  match MsBuild workspaceInfo with
  | Some msbuild => msbuild_Projects msbuild
  | None => []
  end.

(** Number of source files of some projects, a project without a
    [SourceFiles] member counting for none. *)
Definition sourceFileCount {P : Type} (sourceFiles : P -> option (list string))
    (projects : list P) : nat :=
  sum_list ((fun p => from_option length 0 (sourceFiles p)) <$> projects).

(** A measure that is present only for a non-empty project list. *)
Definition whenNonEmpty {P : Type} (projects : list P) (measure : nat) : option nat :=
  match projects with
  | [] => None
  | _ :: _ => Some measure
  end.

Definition keysWhenNonEmpty {P : Type} (projects : list P) (keys : gset string) : gset string :=
  match projects with
  | [] => ∅
  | _ :: _ => keys
  end.

(** A property of the calls made and of the states before and after that
    holds of doing nothing and of doing two things in a row. *)
Record Compositional (R : State -> list HostCall -> State -> Prop) : Prop := {
  compositional_skip : forall s, R s [] s;
  compositional_seq : forall s1 w1 s2 w2 s3,
    R s1 w1 s2 -> R s2 w2 s3 -> R s1 (w1 ++ w2) s3
}.

Definition respects {A : Type} (R : State -> list HostCall -> State -> Prop) (m : M A) : Prop :=
  forall s, R s (calls m s) (exec m s).

(** The calls made by one turn of the event loop from a state [s] whose
    listeners are those installed by [activate]. *)
Definition eventCalls (host : Host) (s : State) (ev : Event) : list HostCall :=
  match ev with
  | ServerStart _ =>
      featureCalls (nextHandle s) (useFormatting (options s))
      ++ (requestOf <$> startPending host
            (length (providerKinds (useFormatting (options s))) + nextHandle s))
  | ServerStop => (fun d => Dispose (handle d)) <$> localDisposables s
  | BeforeServerStart path =>
      [WorkspaceStateUpdate "lastSolutionPathOrFolder" (Js.Str path)]
  | AssetsSettled p o =>
      match awaiting p (pending s), o with
      | Some AssetsThen, Fulfilled Disable =>
          [WorkspaceStateUpdate "assetPromptDisabled" (Js.Bool true)]
      | Some AssetsThen, Fulfilled _ => []
      | Some AssetsThen, Rejected reason => [UnhandledRejection reason]
      | _, _ => []
      end
  | WorkspaceInformationSettled p o =>
      match awaiting p (pending s), o with
      | Some ProjectJsonWarningThen, Fulfilled workspaceInfo =>
          if hasProjectJson workspaceInfo
          then [ShowWarningMessage (nextHandle s) shortMessage "More Detail"]
          else []
      | Some (TelemetryThen measures), Fulfilled workspaceInfo =>
          [SendTelemetryEvent "OmniSharp.Start" (fillMeasures measures workspaceInfo)]
      | Some ProjectJsonWarningThen, Rejected reason => [UnhandledRejection reason]
      | Some (TelemetryThen _), Rejected reason => [UnhandledRejection reason]
      | _, _ => []
      end
  | WarningMessageSettled p o =>
      match awaiting p (pending s), o with
      | Some WarningItemThen, Fulfilled _ => [ChannelAppendLine detailedMessage; ChannelShow]
      | Some WarningItemThen, Rejected reason => [UnhandledRejection reason]
      | _, _ => []
      end
  end.

(** Pushing the members of [ds] one after the other. *)
Definition pushAll {A : Type} (l ds : list A) : list A :=
  fold_left (fun l d => l ++ [d]) ds l.

(** ** Vocabulary of the further properties *)

(** Path of the last [onBeforeServerStart] event among the events. *)
Fixpoint lastPath (evs : list Event) : option string :=
  match evs with
  | [] => None
  | ev :: evs =>
      match lastPath evs, ev with
      | Some path, _ => Some path
      | None, BeforeServerStart path => Some path
      | None, _ => None
      end
  end.

(** The host of the next activation of the same workspace: the persisted
    state is the one left behind, the configuration is unchanged. *)
Definition reactivated (host : Host) (ws : gmap string Js.Value) : Host :=
  {| persisted := ws;
     csharpConfig := csharpConfig host;
     hostOptions := hostOptions host |}.

Definition isWarningThen (pk : nat * Continuation) : bool :=
  match pk.2 with
  | ProjectJsonWarningThen => true
  | _ => false
  end.

Definition isAddAssets (c : HostCall) : bool :=
  match c with
  | AddAssetsIfNecessary _ => true
  | _ => false
  end.

Definition isRequestWorkspaceInformation (c : HostCall) : bool :=
  match c with
  | RequestWorkspaceInformation _ => true
  | _ => false
  end.

(** ** Sample hosts, responses and runs *)

(** A fresh workspace: nothing persisted, nothing configured, formatting
    and automatic start enabled. *)
Definition freshHost : Host :=
  {| persisted := ∅;
     csharpConfig := ∅;
     hostOptions := {| useFormatting := true; autoStart := true |} |}.

(** A workspace with a key of its own in the persisted state, and with
    formatting disabled. *)
Definition plainHost : Host :=
  {| persisted := {[ "userKey" := Js.Num 7 ]};
     csharpConfig := ∅;
     hostOptions := {| useFormatting := false; autoStart := false |} |}.

(** A workspace where the warning is suppressed and the asset prompt has
    been disabled. *)
Definition quietHost : Host :=
  {| persisted := {[ "assetPromptDisabled" := Js.Bool true ]};
     csharpConfig := {[ "suppressProjectJsonWarning" := Js.Bool true ]};
     hostOptions := {| useFormatting := false; autoStart := false |} |}.

Definition noProjects : WorkspaceInformationResponse :=
  {| MsBuild := None; DotNet := None |}.

(** Two project.json projects, one of them without source files, and
    three MSBuild projects, one of them a Unity project. *)
Definition mixedProjects : WorkspaceInformationResponse :=
  {| MsBuild := Some {| msbuild_Projects :=
       [ {| msbuild_Path := "a.csproj"; msbuild_SourceFiles := Some ["A.cs"; "B.cs"];
            msbuild_TargetFrameworks := ["netcoreapp2.0"]; IsUnityProject := false |};
         {| msbuild_Path := "b.csproj"; msbuild_SourceFiles := None;
            msbuild_TargetFrameworks := ["net46"]; IsUnityProject := true |};
         {| msbuild_Path := "c.csproj"; msbuild_SourceFiles := Some ["C.cs"];
            msbuild_TargetFrameworks := ["netcoreapp1.1"]; IsUnityProject := false |} ] |};
     DotNet := Some {| dotnet_Projects :=
       [ {| dotnet_Path := "x/project.json"; dotnet_SourceFiles := Some ["X.cs"] |};
         {| dotnet_Path := "y/project.json"; dotnet_SourceFiles := None |} ] |} |}.

(** A stand-in for [utils.isNetCoreProject]: some target framework starts
    with "netcoreapp". *)
Definition targetsNetCoreApp (project : MSBuildProject) : bool :=
  existsb (String.prefix "netcoreapp") (msbuild_TargetFrameworks project).

(** The server starts twice, and both workspace-information requests of
    the telemetry listener are fulfilled. *)
Definition twoStarts : list Event :=
  [ ServerStart "first";
    WorkspaceInformationSettled 22 (Fulfilled noProjects);
    ServerStart "second";
    WorkspaceInformationSettled 45 (Fulfilled noProjects) ].

(** * Properties *)

(** ** The monad *)

Lemma exec_bind {A B : Type} (m : M A) (k : A -> M B) (s : State) :
  exec (m ≫= k) s = exec (k (m s).1.1) (exec m s).
Proof.
  unfold exec, mbind, M_bind.
  destruct (m s) as [[a s1] w1]; cbn.
  destruct (k a s1) as [[b s2] w2]; reflexivity.
Qed.

Lemma calls_bind {A B : Type} (m : M A) (k : A -> M B) (s : State) :
  calls (m ≫= k) s = calls m s ++ calls (k (m s).1.1) (exec m s).
Proof.
  unfold calls, exec, mbind, M_bind.
  destruct (m s) as [[a s1] w1]; cbn.
  destruct (k a s1) as [[b s2] w2]; reflexivity.
Qed.

Lemma exec_forEach_cons {A : Type} (f : A -> M unit) x xs s :
  exec (forEach f (x :: xs)) s = exec (forEach f xs) (exec (f x) s).
Proof. cbn [forEach]. apply exec_bind. Qed.

Lemma calls_forEach_cons {A : Type} (f : A -> M unit) x xs s :
  calls (forEach f (x :: xs)) s = calls (f x) s ++ calls (forEach f xs) (exec (f x) s).
Proof. cbn [forEach]. apply calls_bind. Qed.

Lemma exec_forEach_app {A : Type} (f : A -> M unit) xs ys s :
  exec (forEach f (xs ++ ys)) s = exec (forEach f ys) (exec (forEach f xs) s).
Proof.
  revert s; induction xs as [|x xs IH]; intros s; [reflexivity|].
  cbn [app]. rewrite !exec_forEach_cons. apply IH.
Qed.

Lemma calls_forEach_app {A : Type} (f : A -> M unit) xs ys s :
  calls (forEach f (xs ++ ys)) s
  = calls (forEach f xs) s ++ calls (forEach f ys) (exec (forEach f xs) s).
Proof.
  revert s; induction xs as [|x xs IH]; intros s; [reflexivity|].
  cbn [app]. rewrite !calls_forEach_cons, exec_forEach_cons, IH.
  by rewrite app_assoc.
Qed.

Section Respect.

Variable R : State -> list HostCall -> State -> Prop.
Hypothesis R_compositional : Compositional R.

Lemma respects_ret {A : Type} (a : A) : respects R (mret a).
Proof. intros s. apply R_compositional. Qed.

Lemma respects_get : respects R get.
Proof. intros s. apply R_compositional. Qed.

Lemma respects_bind {A B : Type} (m : M A) (k : A -> M B) :
  respects R m -> (forall a, respects R (k a)) -> respects R (m ≫= k).
Proof.
  intros Hm Hk s. rewrite exec_bind, calls_bind.
  eapply compositional_seq; [apply R_compositional | apply Hm | apply Hk].
Qed.

Lemma respects_forEach {A : Type} (f : A -> M unit) (xs : list A) :
  (forall x, respects R (f x)) -> respects R (forEach f xs).
Proof.
  intros Hf; induction xs as [|x xs IH]; cbn [forEach].
  - apply (respects_ret tt).
  - apply respects_bind; [apply Hf | intros _; apply IH].
Qed.

(** A property that holds of every callback holds of every turn of the
    event loop. *)
Lemma respects_start :
  (forall e l, respects R (startListener e l)) ->
  forall e, respects R (step (ServerStart e)).
Proof.
  intros Hstart e. unfold step.
  apply respects_bind; [apply respects_get|]; intros s.
  apply respects_forEach, Hstart.
Qed.

Lemma respects_stop :
  (forall d, respects R (call (Dispose (handle d)))) ->
  respects R (step ServerStop).
Proof.
  intros Hdispose. unfold step.
  apply respects_bind; [apply respects_get|]; intros s.
  apply respects_forEach; intros []. unfold stopListener, disposeLanguageFeatures.
  apply respects_bind; [apply respects_get|]; intros s'.
  apply respects_forEach; intros d; apply Hdispose.
Qed.

Lemma respects_before :
  (forall path, respects R (storeLastSolutionPathOrFolder path)) ->
  forall path, respects R (step (BeforeServerStart path)).
Proof.
  intros Hpath path. unfold step.
  apply respects_bind; [apply respects_get|]; intros s.
  apply respects_forEach; intros []. apply Hpath.
Qed.

Lemma respects_other :
  (forall d, respects R (call (Dispose (handle d)))) ->
  (forall path, respects R (storeLastSolutionPathOrFolder path)) ->
  (forall p, respects R (settled p)) ->
  (forall o, respects R (then_ o assetsThen)) ->
  (forall o, respects R (then_ o projectJsonWarningThen)) ->
  (forall o measures, respects R (then_ o (telemetryThen measures))) ->
  (forall o, respects R (then_ o warningItemThen)) ->
  forall ev, isServerStart ev = false -> respects R (step ev).
Proof.
  intros Hdispose Hpath Hsettled Hassets Hwarn Htele Hitem ev Hev.
  destruct ev as [e| |path|p o|p o|p o];
    [discriminate | by apply respects_stop | by apply respects_before | | | ];
    unfold step; (apply respects_bind; [apply respects_get|]); intros s.
  - destruct (awaiting p (pending s)) as [[]|]; try apply (respects_ret tt).
    apply respects_bind; [apply Hsettled | intros _; apply Hassets].
  - destruct (awaiting p (pending s)) as [[]|]; try apply (respects_ret tt).
    + apply respects_bind; [apply Hsettled | intros _; apply Hwarn].
    + apply respects_bind; [apply Hsettled | intros _; apply Htele].
  - destruct (awaiting p (pending s)) as [[]|]; try apply (respects_ret tt).
    apply respects_bind; [apply Hsettled | intros _; apply Hitem].
Qed.

Lemma respects_step :
  (forall e l, respects R (startListener e l)) ->
  (forall d, respects R (call (Dispose (handle d)))) ->
  (forall path, respects R (storeLastSolutionPathOrFolder path)) ->
  (forall p, respects R (settled p)) ->
  (forall o, respects R (then_ o assetsThen)) ->
  (forall o, respects R (then_ o projectJsonWarningThen)) ->
  (forall o measures, respects R (then_ o (telemetryThen measures))) ->
  (forall o, respects R (then_ o warningItemThen)) ->
  forall ev, respects R (step ev).
Proof.
  intros Hstart Hdispose Hpath Hsettled Hassets Hwarn Htele Hitem ev.
  destruct (isServerStart ev) eqn:Hev.
  - destruct ev; try discriminate. by apply respects_start.
  - by apply respects_other.
Qed.

Lemma respects_run :
  (forall ev, respects R (step ev)) -> forall evs, respects R (run evs).
Proof. intros Hstep evs. apply respects_forEach, Hstep. Qed.

End Respect.

(** ** Facts about the callbacks *)

Ltac break_state s :=
  let fmt := fresh "fmt" in
  destruct s as [? ? [fmt ?] ? ? ? ? ? ?]; try destruct fmt.

Lemma registerLanguageFeatures_eq s :
  registerLanguageFeatures s =
  (tt,
   with_nextHandle (fun n => length (providerKinds (useFormatting (options s))) + n)
     (with_localDisposables
        (fun l => l ++ languageFeatures (nextHandle s) (useFormatting (options s))) s),
   featureCalls (nextHandle s) (useFormatting (options s))).
Proof. break_state s; cbv -[app]; rewrite <- !app_assoc; reflexivity. Qed.

Lemma languageFeatures_handle h fmt d :
  d ∈ languageFeatures h fmt ->
  h <= handle d < length (providerKinds fmt) + h.
Proof.
  unfold languageFeatures. intros Hd.
  apply list_elem_of_lookup in Hd as [i Hi].
  rewrite list_lookup_imap in Hi.
  destruct (providerKinds fmt !! i) as [k|] eqn:Hk; [|discriminate].
  apply lookup_lt_Some in Hk. injection Hi as <-. cbn [handle]. lia.
Qed.

Lemma languageFeatures_what h fmt :
  what <$> languageFeatures h fmt = providerKinds fmt.
Proof. destruct fmt; reflexivity. Qed.

Lemma languageFeatures_handles h fmt :
  handle <$> languageFeatures h fmt = seq h (length (providerKinds fmt)).
Proof. destruct fmt; reflexivity. Qed.

Lemma createdHandles_featureCalls h fmt :
  createdHandles (featureCalls h fmt) = handle <$> languageFeatures h fmt.
Proof. destruct fmt; reflexivity. Qed.

Lemma pushAll_app {A : Type} (ds l : list A) : pushAll l ds = l ++ ds.
Proof.
  unfold pushAll. revert l; induction ds as [|d ds IH]; intros l; cbn.
  - by rewrite app_nil_r.
  - rewrite IH, <- app_assoc. reflexivity.
Qed.

Lemma step_start_pushed host s e :
  serverStartListeners s = startListenersOf host ->
  step (ServerStart e) s =
  (tt,
   with_activation (fun r => match r with None => Some e | Some _ => r end)
     (with_pending
        (fun ps => pushAll ps (startPending host
           (length (providerKinds (useFormatting (options s))) + nextHandle s)))
        (with_nextHandle
           (fun n => length (startPromises host)
                     + (length (providerKinds (useFormatting (options s))) + n))
           (with_localDisposables
              (fun l => pushAll l (languageFeatures (nextHandle s) (useFormatting (options s))))
              s))),
   featureCalls (nextHandle s) (useFormatting (options s))
   ++ (requestOf <$> startPending host
         (length (providerKinds (useFormatting (options s))) + nextHandle s))).
Proof.
  intros H. destruct host as [pers cfg opts].
  unfold startListenersOf, startPending, startPromises in *.
  cbn [persisted csharpConfig] in *.
  destruct (Js.truthy (pers !! _)), (Js.truthy (cfg !! _));
    break_state s; cbn in H; subst; reflexivity.
Qed.

(** A server start, in a state where the listeners are those installed by
    [activate]: the language features are appended to [localDisposables],
    the promises of the other listeners become pending, and the promise
    returned by [activate] is resolved if it was not. *)
Lemma step_start_eq host s e :
  serverStartListeners s = startListenersOf host ->
  step (ServerStart e) s =
  (tt,
   with_activation (fun r => match r with None => Some e | Some _ => r end)
     (with_pending
        (fun ps => ps ++ startPending host
           (length (providerKinds (useFormatting (options s))) + nextHandle s))
        (with_nextHandle
           (fun n => length (startPromises host)
                     + (length (providerKinds (useFormatting (options s))) + n))
           (with_localDisposables
              (fun l => l ++ languageFeatures (nextHandle s) (useFormatting (options s)))
              s))),
   featureCalls (nextHandle s) (useFormatting (options s))
   ++ (requestOf <$> startPending host
         (length (providerKinds (useFormatting (options s))) + nextHandle s))).
Proof.
  intros H. rewrite (step_start_pushed host s e H).
  unfold with_activation, with_pending, with_nextHandle, with_localDisposables.
  cbn [localDisposables workspaceState options serverStartListeners
       serverStopListeners beforeServerStartListeners pending nextHandle activation].
  by rewrite !pushAll_app.
Qed.

Lemma activated_eq host :
  activate (csharpConfig host) (initial host) =
  (tt,
   {| localDisposables := [];
      workspaceState := persisted host;
      options := hostOptions host;
      serverStartListeners := startListenersOf host;
      serverStopListeners := [DisposeLanguageFeatures];
      beforeServerStartListeners := [StoreLastSolutionPathOrFolder];
      pending := [];
      nextHandle := 0;
      activation := None |},
   [RegisterCommands; ReportStatus]
   ++ (if autoStart (hostOptions host)
       then [ServerAutoStart (persisted host !! "lastSolutionPathOrFolder")]
       else [])
   ++ [RegisterDebugConfigurationProvider "coreclr"]).
Proof.
  destruct host as [pers cfg [fmt au]].
  cbv [activate initial startListenersOf mbind M_bind mret M_ret get modify call
       onServerStart onServerStop onBeforeServerStart
       with_serverStartListeners with_serverStopListeners
       with_beforeServerStartListeners
       localDisposables workspaceState options serverStartListeners
       serverStopListeners beforeServerStartListeners pending nextHandle
       activation persisted csharpConfig hostOptions autoStart].
  destruct (Js.truthy (pers !! _)), (Js.truthy (cfg !! _)), au; reflexivity.
Qed.

(** ** Reachable states *)

Ltac simpl_state :=
  unfold with_localDisposables, with_workspaceState, with_serverStartListeners,
    with_serverStopListeners, with_beforeServerStartListeners, with_pending,
    with_nextHandle, with_activation;
  cbn [localDisposables workspaceState options serverStartListeners
       serverStopListeners beforeServerStartListeners pending nextHandle
       activation fst snd].

Ltac run_monad :=
  cbv [exec calls mbind M_bind mret M_ret get modify call fresh await settled
       push pushNew register create addAssets projectJsonWarning
       workspaceTelemetry resolve workspaceStateUpdate
       storeLastSolutionPathOrFolder then_ assetsThen telemetryThen
       warningItemThen startListener];
  simpl_state.

Lemma bind_get {A : Type} (k : State -> M A) s : (get ≫= k) s = k s s.
Proof.
  unfold mbind, M_bind, get. by destruct (k s s) as [[a s'] w].
Qed.

Lemma after_nil host : after host [] = activated host.
Proof. reflexivity. Qed.

Lemma after_snoc host evs ev :
  after host (evs ++ [ev]) = exec (step ev) (after host evs).
Proof.
  unfold after, run. rewrite exec_forEach_app, exec_forEach_cons. reflexivity.
Qed.

Lemma after_app host evs evs' :
  after host (evs ++ evs') = exec (run evs') (after host evs).
Proof. unfold after, run. apply exec_forEach_app. Qed.

Lemma history_snoc host evs ev :
  history host (evs ++ [ev]) = history host evs ++ calls (step ev) (after host evs).
Proof.
  unfold history, after, run.
  rewrite calls_forEach_app, calls_forEach_cons. cbn [forEach].
  by rewrite app_nil_r.
Qed.

Lemma elem_of_snoc {A : Type} (l : list A) (x y : A) :
  y ∈ l ++ [x] <-> y ∈ l \/ y = x.
Proof. rewrite elem_of_app, list_elem_of_singleton. reflexivity. Qed.

Lemma startPending_elem host h p k :
  (p, k) ∈ startPending host h ->
  h <= p < length (startPromises host) + h /\ k ∈ startPromises host.
Proof.
  unfold startPending. intros Hpk.
  apply list_elem_of_lookup in Hpk as [i Hi].
  rewrite list_lookup_imap in Hi.
  destruct (startPromises host !! i) as [k'|] eqn:Hk; [|discriminate].
  injection Hi as <- <-. split.
  - apply lookup_lt_Some in Hk. lia.
  - by eapply list_elem_of_lookup_2.
Qed.

Lemma activated_consistent host : Consistent host (activated host).
Proof.
  unfold activated, exec. rewrite activated_eq; cbn.
  split; cbn; try reflexivity; intros *; by rewrite elem_of_nil.
Qed.

Lemma preserving_compositional host :
  Compositional (fun s _ s' => Consistent host s -> Consistent host s').
Proof. split; auto. Qed.

Lemma settled_consistent host p s :
  Consistent host s -> Consistent host (exec (settled p) s).
Proof.
  intros [Ho Hs Ht Hb Hp Hm Hl]. split; run_monad; auto.
  - intros q k [_ Hk]%list_elem_of_filter. eauto.
  - intros q m [_ Hk]%list_elem_of_filter. eauto.
Qed.

Lemma step_consistent host ev s :
  Consistent host s -> Consistent host (exec (step ev) s).
Proof.
  destruct (isServerStart ev) eqn:Hev.
  - destruct ev as [e| | | | |]; try discriminate.
    intros [Ho Hs Ht Hb Hp Hm Hl].
    unfold exec. rewrite (step_start_eq host s e Hs).
    split; simpl_state; auto.
    + intros p k [Hk|Hk]%elem_of_app.
      * apply Hp in Hk. lia.
      * apply startPending_elem in Hk. lia.
    + intros p k [Hk|Hk]%elem_of_app; [eauto|].
      apply startPending_elem in Hk. tauto.
    + intros d [Hd|Hd]%elem_of_app.
      * apply Hl in Hd. lia.
      * apply languageFeatures_handle in Hd. lia.
  - revert s.
    apply (respects_other _ (preserving_compositional host)); [ | | | | | | | done].
    + intros d s. auto.
    + intros path s [Ho Hs Ht Hb Hp Hm Hl]. by split; run_monad.
    + intros p s. apply settled_consistent.
    + intros [[]|reason] s [Ho Hs Ht Hb Hp Hm Hl]; by split; run_monad.
    + intros [info|reason] s [Ho Hs Ht Hb Hp Hm Hl]; [|by split; run_monad].
      unfold then_, projectJsonWarningThen.
      destruct (hasProjectJson info); [|by split; run_monad].
      split; run_monad; auto.
      * intros p k [Hk|Hk]%elem_of_snoc; [apply Hp in Hk; lia|].
        injection Hk as -> ->. lia.
      * intros p k [Hk|Hk]%elem_of_snoc; [eauto|].
        injection Hk as -> ->. by right.
      * intros d Hd. apply Hl in Hd. lia.
    + intros [info|reason] measures s [Ho Hs Ht Hb Hp Hm Hl]; by split; run_monad.
    + intros [item|reason] s [Ho Hs Ht Hb Hp Hm Hl]; by split; run_monad.
Qed.

Lemma after_consistent host evs : Consistent host (after host evs).
Proof.
  induction evs as [|ev evs IH] using rev_ind.
  - apply activated_consistent.
  - rewrite after_snoc. by apply step_consistent.
Qed.

(** ** The calls of one turn *)

Lemma calls_dispose (ds : list Disposable) s :
  calls (forEach (fun d => call (Dispose (handle d))) ds) s
  = (fun d => Dispose (handle d)) <$> ds.
Proof.
  induction ds as [|d ds IH]; [reflexivity|].
  rewrite calls_forEach_cons. cbn [fmap list_fmap]. f_equal. apply IH.
Qed.

Lemma calls_step host s ev :
  Consistent host s -> calls (step ev) s = eventCalls host s ev.
Proof.
  intros [Ho Hs Ht Hb Hp Hm Hl].
  destruct ev as [e| |path|p o|p o|p o]; unfold eventCalls.
  - unfold calls. by rewrite (step_start_eq host s e Hs).
  - unfold calls, step. rewrite bind_get, Ht. cbn [forEach stopListener].
    fold (calls (disposeLanguageFeatures ≫= λ _ : (), mret ()) s).
    rewrite calls_bind. unfold disposeLanguageFeatures at 1.
    unfold calls at 1. rewrite bind_get.
    fold (calls (forEach (λ d, call (Dispose (handle d))) (localDisposables s)) s).
    rewrite calls_dispose. apply app_nil_r.
  - unfold calls, step. rewrite bind_get, Hb. reflexivity.
  - unfold calls, step. rewrite bind_get.
    destruct (awaiting p (pending s)) as [[]|]; try reflexivity.
    destruct o as [[]|]; reflexivity.
  - unfold calls, step. rewrite bind_get.
    destruct (awaiting p (pending s)) as [[]|]; try reflexivity.
    + destruct o as [info|]; [|reflexivity].
      run_monad. unfold projectJsonWarningThen.
      destruct (hasProjectJson info); reflexivity.
    + destruct o as [info|]; reflexivity.
  - unfold calls, step. rewrite bind_get.
    destruct (awaiting p (pending s)) as [[]|]; try reflexivity.
    destruct o as [[]|]; reflexivity.
Qed.

(** ** The promise returned by [activate] *)

Lemma activation_compositional :
  Compositional (fun s _ s' => activation s' = activation s).
Proof. split; [done | congruence]. Qed.

Lemma activation_step host ev s :
  Consistent host s ->
  activation (exec (step ev) s) =
  match activation s, ev with
  | None, ServerStart e => Some e
  | r, _ => r
  end.
Proof.
  intros Hc. destruct (isServerStart ev) eqn:Hev.
  - destruct ev as [e| | | | |]; try discriminate.
    unfold exec. rewrite (step_start_eq host s e (consistent_start _ _ Hc)).
    simpl_state. by destruct (activation s).
  - transitivity (activation s); [|by destruct (activation s), ev].
    revert s Hc. intros s _. revert s.
    apply (respects_other _ activation_compositional); try done.
    + intros o s; by destruct o as [[]|].
    + intros o s; destruct o as [info|]; [|done].
      unfold then_, projectJsonWarningThen.
      by destruct (hasProjectJson info).
    + intros o m s; by destruct o.
    + intros o s; by destruct o.
Qed.

Lemma firstServerStart_snoc evs ev :
  firstServerStart (evs ++ [ev]) =
  match firstServerStart evs, ev with
  | None, ServerStart e => Some e
  | r, _ => r
  end.
Proof.
  induction evs as [|ev' evs IH]; cbn.
  - by destruct ev.
  - destruct ev'; try apply IH. reflexivity.
Qed.

Lemma firstServerStart_none evs :
  Forall (fun ev => isServerStart ev = false) evs -> firstServerStart evs = None.
Proof.
  induction 1 as [|ev evs Hev _ IH]; [reflexivity|].
  destruct ev; try discriminate; exact IH.
Qed.

Lemma firstServerStart_first pre e post :
  Forall (fun ev => isServerStart ev = false) pre ->
  firstServerStart (pre ++ ServerStart e :: post) = Some e.
Proof.
  induction 1 as [|ev evs Hev _ IH]; [reflexivity|].
  destruct ev; try discriminate; exact IH.
Qed.

Lemma activation_after host evs :
  activation (after host evs) = firstServerStart evs.
Proof.
  induction evs as [|ev evs IH] using rev_ind.
  { rewrite after_nil. unfold activated, exec. by rewrite activated_eq. }
  rewrite after_snoc, firstServerStart_snoc, <- IH.
  apply (activation_step host), after_consistent.
Qed.

(** C8: the promise returned by [activate] is resolved exactly by the first
    server start delivered after activation, with the payload of that event:
    after any events its value is the payload of the first server start among
    them; it is unresolved as long as no server start has been delivered, and
    once resolved by the first server start it keeps that payload whatever
    follows. *)
Theorem activate_promise_first_start host evs :
  activation (after host evs) = firstServerStart evs /\
  (Forall (fun ev => isServerStart ev = false) evs ->
   activation (after host evs) = None) /\
  (forall pre e post,
     evs = pre ++ ServerStart e :: post ->
     Forall (fun ev => isServerStart ev = false) pre ->
     activation (after host pre) = None /\
     activation (after host (pre ++ [ServerStart e])) = Some e /\
     activation (after host evs) = Some e).
Proof.
  split; [apply activation_after|]. split.
  - intros Hevs. rewrite activation_after. by apply firstServerStart_none.
  - intros pre e post -> Hpre. rewrite !activation_after.
    rewrite (firstServerStart_none pre Hpre).
    by rewrite !firstServerStart_first.
Qed.

(** ** The local disposable list *)

Lemma prefix_compositional :
  Compositional (fun s _ s' => localDisposables s `prefix_of` localDisposables s').
Proof. split; [done | intros; by etrans]. Qed.

Lemma created_compositional :
  Compositional (fun s w s' =>
    handle <$> localDisposables s'
    = (handle <$> localDisposables s) ++ createdHandles w).
Proof.
  split.
  - intros s. by rewrite app_nil_r.
  - intros s1 w1 s2 w2 s3 H12 H23. unfold createdHandles in *.
    by rewrite H23, H12, omap_app, app_assoc.
Qed.

Lemma localDisposables_prefix_step ev s :
  localDisposables s `prefix_of` localDisposables (exec (step ev) s).
Proof.
  revert ev s. apply (respects_step _ prefix_compositional).
  - intros e l s; destruct l; try done.
    unfold startListener, exec. rewrite registerLanguageFeatures_eq.
    simpl_state. by apply prefix_app_r.
  - intros d s; reflexivity.
  - intros path s; reflexivity.
  - intros p s; reflexivity.
  - intros o s; by destruct o as [[]|].
  - intros o s; destruct o as [info|]; [|done].
    unfold then_, projectJsonWarningThen.
    by destruct (hasProjectJson info).
  - intros o m s; by destruct o.
  - intros o s; by destruct o.
Qed.

Lemma localDisposables_prefix_run evs s :
  localDisposables s `prefix_of` localDisposables (exec (run evs) s).
Proof.
  revert s. apply (respects_run _ prefix_compositional).
  intros ev s. apply localDisposables_prefix_step.
Qed.

Lemma localDisposables_created_step ev s :
  handle <$> localDisposables (exec (step ev) s)
  = (handle <$> localDisposables s) ++ createdHandles (calls (step ev) s).
Proof.
  revert ev s. apply (respects_step _ created_compositional).
  - intros e l s; destruct l; try by rewrite app_nil_r.
    unfold startListener, exec, calls. rewrite registerLanguageFeatures_eq.
    simpl_state. by rewrite fmap_app, createdHandles_featureCalls.
  - intros d s; by rewrite app_nil_r.
  - intros path s; by rewrite app_nil_r.
  - intros p s; by rewrite app_nil_r.
  - intros o s; destruct o as [[]|]; by rewrite app_nil_r.
  - intros o s; destruct o as [info|]; [|by rewrite app_nil_r].
    unfold then_, projectJsonWarningThen.
    destruct (hasProjectJson info); by rewrite app_nil_r.
  - intros o m s; destruct o; by rewrite app_nil_r.
  - intros o s; destruct o; by rewrite app_nil_r.
Qed.

Lemma localDisposables_created host evs :
  handle <$> localDisposables (after host evs) = createdHandles (history host evs).
Proof.
  unfold after, history.
  rewrite (respects_run _ created_compositional
             (fun ev s => localDisposables_created_step ev s) evs (activated host)).
  unfold activated, exec. by rewrite activated_eq.
Qed.

Lemma elem_of_disposedHandles h cs :
  h ∈ disposedHandles cs <-> Dispose h ∈ cs.
Proof.
  unfold disposedHandles. rewrite list_elem_of_omap. split.
  - intros (c & Hc & Hh). destruct c; try discriminate. by injection Hh as ->.
  - intros Hc. by exists (Dispose h).
Qed.

Lemma disposedHandles_eventCalls host s ev :
  disposedHandles (eventCalls host s ev) =
  match ev with
  | ServerStop => handle <$> localDisposables s
  | _ => []
  end.
Proof.
  destruct ev as [e| |path|p o|p o|p o]; unfold eventCalls.
  - unfold disposedHandles. rewrite omap_app.
    destruct host as [pers cfg opts]. unfold startPending, startPromises.
    cbn [persisted csharpConfig].
    by destruct (useFormatting (options s)), (Js.truthy (pers !! _)),
      (Js.truthy (cfg !! _)).
  - unfold disposedHandles. induction (localDisposables s) as [|d ds IH]; [done|].
    cbn. by rewrite <- IH.
  - done.
  - by destruct (awaiting p (pending s)) as [[]|], o as [[]|].
  - destruct (awaiting p (pending s)) as [[]|], o as [info|]; try done.
    by destruct (hasProjectJson info).
  - by destruct (awaiting p (pending s)) as [[]|], o as [|].
Qed.

Lemma disposed_are_local host evs h :
  Dispose h ∈ history host evs -> h ∈ handle <$> localDisposables (after host evs).
Proof.
  induction evs as [|ev evs IH] using rev_ind.
  - unfold history. cbn. by rewrite elem_of_nil.
  - rewrite history_snoc, after_snoc. intros [Hh|Hh]%elem_of_app.
    + destruct (localDisposables_prefix_step ev (after host evs)) as [k ->].
      rewrite fmap_app, elem_of_app. left; auto.
    + rewrite (calls_step host _ _ (after_consistent host evs)) in Hh.
      apply elem_of_disposedHandles in Hh.
      rewrite disposedHandles_eventCalls in Hh.
      destruct ev; try by apply elem_of_nil in Hh.
      destruct (localDisposables_prefix_step ServerStop (after host evs)) as [k ->].
      rewrite fmap_app, elem_of_app. by left.
Qed.

(** C9: [localDisposables] is never cleared.  Every turn of the event loop
    only extends it, so that it holds every disposable created since
    activation; a server stop calls [dispose] on each of its members, hence
    also on every member that an earlier server stop has disposed already. *)
Theorem localDisposables_never_cleared host evs ev :
  let s := after host evs in
  localDisposables s `prefix_of` localDisposables (exec (step ev) s) /\
  handle <$> localDisposables s = createdHandles (history host evs) /\
  calls (step ServerStop) s = (fun d => Dispose (handle d)) <$> localDisposables s /\
  (forall h, Dispose h ∈ history host evs -> Dispose h ∈ calls (step ServerStop) s).
Proof.
  intros s. split; [apply localDisposables_prefix_step|].
  split; [apply localDisposables_created|].
  assert (Hstop : calls (step ServerStop) s
                  = (fun d => Dispose (handle d)) <$> localDisposables s)
    by apply (calls_step host s ServerStop), after_consistent.
  split; [exact Hstop|].
  intros h Hh%disposed_are_local. rewrite Hstop.
  apply list_elem_of_fmap in Hh as (d & -> & Hd).
  apply list_elem_of_fmap. by exists d.
Qed.

(** ** Language features follow the server *)

Lemma localDisposables_start host s e :
  Consistent host s ->
  localDisposables (exec (step (ServerStart e)) s)
  = localDisposables s
    ++ languageFeatures (nextHandle s) (useFormatting (hostOptions host)).
Proof.
  intros Hc. unfold exec.
  rewrite (step_start_eq host s e (consistent_start _ _ Hc)).
  simpl_state. by rewrite (consistent_options _ _ Hc).
Qed.

Lemma createdHandles_start host s e :
  Consistent host s ->
  createdHandles (calls (step (ServerStart e)) s)
  = handle <$> languageFeatures (nextHandle s) (useFormatting (hostOptions host)).
Proof.
  intros Hc.
  pose proof (localDisposables_created_step (ServerStart e) s) as Hcreated.
  rewrite (localDisposables_start host s e Hc), fmap_app in Hcreated.
  by apply app_inv_head in Hcreated.
Qed.

(** C1: a server start appends a fresh set of language features to
    [localDisposables]: the members listed by [providerKinds], among them a
    registration for each of the definition, implementation, code lens,
    document highlight, document symbol, reference, hover, rename,
    completion, workspace symbol, signature help and code action features,
    the diagnostics and the change forwarding.  They are created by that
    event, with handles that differ from each other and from those of the
    members already in the list.  Whatever happens next, a later server stop
    calls [dispose] on each of them. *)
Theorem start_registers_stop_disposes host evs e :
  let s := after host evs in
  let fresh := languageFeatures (nextHandle s) (useFormatting (hostOptions host)) in
  let s1 := exec (step (ServerStart e)) s in
  localDisposables s1 = localDisposables s ++ fresh /\
  what <$> fresh = providerKinds (useFormatting (hostOptions host)) /\
  Forall (fun f => f ∈ registeredFeatures fresh)
    [DefinitionProvider; ImplementationProvider; CodeLensProvider;
     DocumentHighlightProvider; DocumentSymbolProvider; ReferenceProvider;
     HoverProvider; RenameProvider; CompletionItemProvider;
     WorkspaceSymbolProvider; SignatureHelpProvider; CodeActionsProvider] /\
  ReportDiagnostics ∈ what <$> fresh /\
  ForwardChanges ∈ what <$> fresh /\
  createdHandles (calls (step (ServerStart e)) s) = handle <$> fresh /\
  NoDup (handle <$> fresh) /\
  (forall d d', d ∈ fresh -> d' ∈ localDisposables s -> handle d <> handle d') /\
  (forall evs' d, d ∈ fresh ->
     Dispose (handle d) ∈ calls (step ServerStop) (exec (run evs') s1)).
Proof.
  intros s fresh s1.
  assert (Hc : Consistent host s) by apply after_consistent.
  assert (Hlocal : localDisposables s1 = localDisposables s ++ fresh)
    by apply (localDisposables_start host s e Hc).
  split; [exact Hlocal|].
  split; [apply languageFeatures_what|].
  split; [|split; [|split]];
    [unfold fresh; destruct (useFormatting (hostOptions host));
     cbv -[elem_of]; repeat constructor .. |].
  split; [apply (createdHandles_start host s e Hc)|].
  split; [unfold fresh; rewrite languageFeatures_handles; apply NoDup_seq|].
  split.
  - intros d d' Hd%languageFeatures_handle Hd'.
    apply (consistent_locals _ _ Hc) in Hd'. lia.
  - intros evs' d Hd.
    set (s2 := exec (run evs') s1).
    assert (Hc2 : Consistent host s2).
    { unfold s2, s1, s. rewrite <- after_snoc, <- after_app. apply after_consistent. }
    rewrite (calls_step host s2 ServerStop Hc2). cbn [eventCalls].
    apply list_elem_of_fmap. exists d. split; [done|].
    destruct (localDisposables_prefix_run evs' s1) as [k Hk].
    fold s2 in Hk. rewrite Hk, Hlocal, !elem_of_app. auto.
Qed.

(** ** Telemetry *)

Lemma countIf_app {A : Type} (f : A -> bool) xs ys :
  countIf f (xs ++ ys) = countIf f xs + countIf f ys.
Proof. induction xs as [|x xs IH]; cbn; [done | rewrite IH; lia]. Qed.

Lemma countIf_settled (f : nat * Continuation -> bool) p ps :
  countIf f (filter (fun qk => qk.1 <> p) ps) <= countIf f ps.
Proof.
  induction ps as [|[q k] ps IH]; [done|].
  rewrite filter_cons. cbn [fst countIf].
  destruct (decide (q <> p)); cbn [countIf]; lia.
Qed.

Lemma countIf_settled_awaiting (f : nat * Continuation -> bool) p k ps :
  awaiting p ps = Some k -> f (p, k) = true ->
  S (countIf f (filter (fun qk => qk.1 <> p) ps)) <= countIf f ps.
Proof.
  intros Hk Hf. induction ps as [|[q k'] ps IH]; [discriminate|].
  rewrite filter_cons. cbn [fst countIf awaiting] in *.
  destruct (Nat.eqb_spec p q) as [->|Hpq].
  - injection Hk as ->. rewrite Hf.
    destruct (decide (q <> q)); [done|].
    pose proof (countIf_settled f q ps). lia.
  - destruct (decide (q <> p)) as [_|Hn]; [|destruct Hn; congruence].
    cbn [countIf]. specialize (IH Hk). lia.
Qed.

Lemma telemetry_calls host s ev :
  countIf isTelemetryStart (eventCalls host s ev) =
  match ev with
  | WorkspaceInformationSettled p (Fulfilled _) =>
      match awaiting p (pending s) with
      | Some (TelemetryThen _) => 1
      | _ => 0
      end
  | _ => 0
  end.
Proof.
  destruct ev as [e| |path|p o|p o|p o]; unfold eventCalls.
  - rewrite countIf_app.
    destruct host as [pers cfg opts]. unfold startPending, startPromises.
    cbn [persisted csharpConfig].
    by destruct (useFormatting (options s)), (Js.truthy (pers !! _)),
      (Js.truthy (cfg !! _)).
  - induction (localDisposables s) as [|d ds IH]; [done|]. exact IH.
  - done.
  - by destruct (awaiting p (pending s)) as [[]|], o as [[]|].
  - destruct (awaiting p (pending s)) as [[]|], o as [info|]; try done.
    by destruct (hasProjectJson info).
  - by destruct (awaiting p (pending s)) as [[]|], o as [|].
Qed.

Lemma pending_start host s e :
  Consistent host s ->
  pending (exec (step (ServerStart e)) s)
  = pending s
    ++ startPending host
         (length (providerKinds (useFormatting (options s))) + nextHandle s).
Proof.
  intros Hc. unfold exec.
  by rewrite (step_start_eq host s e (consistent_start _ _ Hc)).
Qed.

Lemma telemetry_startPending host h :
  countIf isTelemetryThen (startPending host h) = 1.
Proof.
  destruct host as [pers cfg opts]. unfold startPending, startPromises.
  cbn [persisted csharpConfig].
  by destruct (Js.truthy (pers !! _)), (Js.truthy (cfg !! _)).
Qed.

Lemma telemetry_step host s ev :
  Consistent host s ->
  countIf isTelemetryStart (calls (step ev) s)
  + countIf isTelemetryThen (pending (exec (step ev) s))
  <= countIf isTelemetryThen (pending s) + (if isServerStart ev then 1 else 0).
Proof.
  intros Hc. rewrite (calls_step host s ev Hc), telemetry_calls.
  destruct ev as [e| |path|p o|p o|p o]; cbn [isServerStart].
  - rewrite (pending_start host s e Hc), countIf_app, telemetry_startPending. lia.
  - enough (pending (exec (step ServerStop) s) = pending s) as -> by lia.
    revert s Hc. intros s _. revert s.
    apply (respects_stop (fun s _ s' => pending s' = pending s)); [|done].
    split; [done | congruence].
  - enough (pending (exec (step (BeforeServerStart path)) s) = pending s) as -> by lia.
    revert s Hc. intros s _. revert s.
    apply (respects_before (fun s _ s' => pending s' = pending s)); [|done].
    split; [done | congruence].
  - unfold exec, step. rewrite bind_get.
    destruct (awaiting p (pending s)) as [[]|]; try (run_monad; lia).
    pose proof (countIf_settled isTelemetryThen p (pending s)).
    destruct o as [[]|]; run_monad; lia.
  - unfold exec, step. rewrite bind_get.
    destruct (awaiting p (pending s)) as [[| |m|]|] eqn:Hp.
    + destruct o; run_monad; lia.
    + pose proof (countIf_settled isTelemetryThen p (pending s)).
      destruct o as [info|]; [|run_monad; lia].
      run_monad. unfold projectJsonWarningThen.
      destruct (hasProjectJson info); run_monad; [|lia].
      rewrite countIf_app. cbn. lia.
    + pose proof (countIf_settled_awaiting isTelemetryThen p _ _ Hp eq_refl).
      destruct o as [info|]; run_monad; lia.
    + destruct o; run_monad; lia.
    + destruct o; run_monad; lia.
  - unfold exec, step. rewrite bind_get.
    destruct (awaiting p (pending s)) as [[]|]; try (run_monad; lia).
    pose proof (countIf_settled isTelemetryThen p (pending s)).
    destruct o as [|]; run_monad; lia.
Qed.

Lemma telemetry_run host evs :
  countIf isTelemetryStart (history host evs)
  + countIf isTelemetryThen (pending (after host evs))
  <= countIf isServerStart evs.
Proof.
  induction evs as [|ev evs IH] using rev_ind.
  - unfold history, after, activated, exec, calls. rewrite activated_eq. cbn. lia.
  - rewrite history_snoc, after_snoc, !countIf_app. cbn [countIf].
    pose proof (telemetry_step host (after host evs) ev (after_consistent host evs)).
    lia.
Qed.

(** C2, as amended: the event 'OmniSharp.Start' is sent once for each
    workspace-information request of the telemetry listener that is
    fulfilled, and by nothing else; each server start makes one such
    request, so within an activation the number of events sent is at most the
    number of server starts. *)
Theorem telemetry_once_per_fulfilled_request host evs ev :
  let s := after host evs in
  countIf isTelemetryStart (calls (step ev) s) =
    match ev with
    | WorkspaceInformationSettled p (Fulfilled _) =>
        match awaiting p (pending s) with
        | Some (TelemetryThen _) => 1
        | _ => 0
        end
    | _ => 0
    end /\
  (forall e, countIf isTelemetryThen (pending (exec (step (ServerStart e)) s))
             = S (countIf isTelemetryThen (pending s))) /\
  countIf isTelemetryStart (history host evs)
    + countIf isTelemetryThen (pending s) <= countIf isServerStart evs.
Proof.
  intros s. assert (Hc : Consistent host s) by apply after_consistent.
  split; [|split].
  - rewrite (calls_step host s ev Hc). apply telemetry_calls.
  - intros e.
    rewrite (pending_start host s e Hc), countIf_app, telemetry_startPending. lia.
  - apply telemetry_run.
Qed.

(** ** The measures of the telemetry event *)

Lemma sum_from {T : Type} (f : T -> nat) (l : list T) (n : nat) :
  fold_left (fun prev curr => prev + f curr) l n = n + sum_list (f <$> l).
Proof.
  revert n; induction l as [|x l IH]; intros n; cbn.
  - lia.
  - rewrite IH. lia.
Qed.

Lemma sum_sum_list {T : Type} (f : T -> nat) (l : list T) :
  Common.sum l f = sum_list (f <$> l).
Proof. unfold Common.sum. by rewrite sum_from. Qed.

Lemma sum_safeLength {P : Type} (sourceFiles : P -> option (list string)) (l : list P) :
  Common.sum l (fun p => Common.safeLength (sourceFiles p))
  = sourceFileCount sourceFiles l.
Proof.
  rewrite sum_sum_list. reflexivity.
Qed.

Lemma sum_indicator {T : Type} (b : T -> bool) (l : list T) :
  Common.sum l (fun p => if b p then 1 else 0)
  = length (filter (fun p => b p = true) l).
Proof.
  rewrite sum_sum_list. induction l as [|x l IH]; [done|].
  rewrite filter_cons. cbn [fmap list_fmap sum_list sum_list_with].
  destruct (b x) eqn:Hb.
  - rewrite decide_True by done. cbn. by rewrite <- IH.
  - rewrite decide_False by done. by rewrite <- IH.
Qed.

Lemma awaiting_elem p k ps : awaiting p ps = Some k -> (p, k) ∈ ps.
Proof.
  induction ps as [|[q k'] ps IH]; [discriminate|]. cbn [awaiting].
  destruct (Nat.eqb_spec p q) as [->|Hpq].
  - intros [= ->]. by left.
  - intros Hk. right. auto.
Qed.

Lemma fillMeasures_lookup info :
  let measures := fillMeasures ∅ info in
  let dn := dotnetProjects info in
  let ms := msbuildProjects info in
  measures !! "projectjson.projectcount" = whenNonEmpty dn (length dn) /\
  measures !! "projectjson.filecount"
    = whenNonEmpty dn (sourceFileCount dotnet_SourceFiles dn) /\
  measures !! "msbuild.projectcount" = whenNonEmpty ms (length ms) /\
  measures !! "msbuild.filecount"
    = whenNonEmpty ms (sourceFileCount msbuild_SourceFiles ms) /\
  measures !! "msbuild.unityprojectcount"
    = whenNonEmpty ms (length (filter (fun p => IsUnityProject p = true) ms)) /\
  measures !! "msbuild.netcoreprojectcount"
    = whenNonEmpty ms (length (filter (fun p => isNetCoreProject p = true) ms)).
Proof.
  unfold fillMeasures, dotnetProjects, msbuildProjects.
  destruct info as [[[[|m ms]]|] [[[|d dn]]|]];
    cbn [MsBuild DotNet msbuild_Projects dotnet_Projects whenNonEmpty Nat.ltb Nat.leb length];
    rewrite <- ?sum_safeLength, <- ?sum_indicator;
    repeat split; by simplify_map_eq.
Qed.

Lemma fillMeasures_dom info :
  dom (fillMeasures ∅ info) =
  keysWhenNonEmpty (dotnetProjects info)
    {[ "projectjson.projectcount"; "projectjson.filecount" ]}
  ∪ keysWhenNonEmpty (msbuildProjects info)
      {[ "msbuild.projectcount"; "msbuild.filecount";
         "msbuild.unityprojectcount"; "msbuild.netcoreprojectcount" ]}.
Proof.
  unfold fillMeasures, dotnetProjects, msbuildProjects.
  destruct info as [[[[|m ms]]|] [[[|d dn]]|]];
    cbn [MsBuild DotNet msbuild_Projects dotnet_Projects keysWhenNonEmpty
         Nat.ltb Nat.leb length];
    rewrite ?dom_insert_L, dom_empty_L; set_solver.
Qed.

Lemma startPromises_measures host measures :
  TelemetryThen measures ∈ startPromises host -> measures = ∅.
Proof.
  destruct host as [pers cfg opts]. unfold startPromises.
  cbn [persisted csharpConfig]. intros Hm.
  destruct (Js.truthy (pers !! _)), (Js.truthy (cfg !! _)); cbn in Hm;
    repeat (apply elem_of_cons in Hm as [Hm|Hm];
            [discriminate || by injection Hm|]);
    by apply elem_of_nil in Hm.
Qed.

(** C3: the measures sent with the telemetry event are those of the
    workspace information received.  For a non-empty list of project.json
    projects, 'projectjson.projectcount' is its length and
    'projectjson.filecount' the number of source files of its projects (none
    for a project without source files); for a non-empty list of MSBuild
    projects, 'msbuild.projectcount' is its length, 'msbuild.filecount' the
    number of source files, 'msbuild.unityprojectcount' the number of Unity
    projects and 'msbuild.netcoreprojectcount' the number of .NET Core
    projects; the keys of an empty or absent list are absent, and there is
    no other key. *)
Theorem telemetry_measures host evs p measures0 info :
  let s := after host evs in
  let measures := fillMeasures ∅ info in
  let dn := dotnetProjects info in
  let ms := msbuildProjects info in
  (awaiting p (pending s) = Some (TelemetryThen measures0) ->
   calls (step (WorkspaceInformationSettled p (Fulfilled info))) s
   = [SendTelemetryEvent "OmniSharp.Start" measures]) /\
  measures !! "projectjson.projectcount" = whenNonEmpty dn (length dn) /\
  measures !! "projectjson.filecount"
    = whenNonEmpty dn (sourceFileCount dotnet_SourceFiles dn) /\
  measures !! "msbuild.projectcount" = whenNonEmpty ms (length ms) /\
  measures !! "msbuild.filecount"
    = whenNonEmpty ms (sourceFileCount msbuild_SourceFiles ms) /\
  measures !! "msbuild.unityprojectcount"
    = whenNonEmpty ms (length (filter (fun p => IsUnityProject p = true) ms)) /\
  measures !! "msbuild.netcoreprojectcount"
    = whenNonEmpty ms (length (filter (fun p => isNetCoreProject p = true) ms)) /\
  dom measures =
    keysWhenNonEmpty dn {[ "projectjson.projectcount"; "projectjson.filecount" ]}
    ∪ keysWhenNonEmpty ms
        {[ "msbuild.projectcount"; "msbuild.filecount";
           "msbuild.unityprojectcount"; "msbuild.netcoreprojectcount" ]}.
Proof.
  intros s measures dn ms.
  assert (Hc : Consistent host s) by apply after_consistent.
  split.
  - intros Hp. rewrite (calls_step host s _ Hc). cbn [eventCalls]. rewrite Hp.
    apply awaiting_elem, (consistent_promises _ _ Hc) in Hp as [Hp|Hp];
      [|discriminate].
    by rewrite (startPromises_measures host measures0 Hp).
  - pose proof (fillMeasures_lookup info) as Hlookup.
    repeat split; try apply Hlookup. apply fillMeasures_dom.
Qed.

(** ** The project.json warning *)

Lemma startListenersOf_warning host :
  ProjectJsonWarning ∈ startListenersOf host
  <-> Js.truthy (csharpConfig host !! "suppressProjectJsonWarning") = false.
Proof.
  unfold startListenersOf.
  destruct (Js.truthy (persisted host !! _)), (Js.truthy (csharpConfig host !! _));
    cbn; split; try done; intros Hl;
    repeat (apply elem_of_cons in Hl as [Hl|Hl]; [discriminate|]);
    try (by apply elem_of_nil in Hl); repeat constructor.
Qed.

Lemma startPromises_warning host :
  ProjectJsonWarningThen ∈ startPromises host
  <-> Js.truthy (csharpConfig host !! "suppressProjectJsonWarning") = false.
Proof.
  unfold startPromises.
  destruct (Js.truthy (persisted host !! _)), (Js.truthy (csharpConfig host !! _));
    cbn; split; try done; intros Hl;
    repeat (apply elem_of_cons in Hl as [Hl|Hl]; [discriminate|]);
    try (by apply elem_of_nil in Hl); repeat constructor.
Qed.

Lemma awaiting_app p ps qs :
  awaiting p (ps ++ qs) =
  match awaiting p ps with
  | Some k => Some k
  | None => awaiting p qs
  end.
Proof.
  induction ps as [|[q k] ps IH]; [done|]. cbn [app awaiting].
  by destruct (Nat.eqb p q).
Qed.

Lemma awaiting_fresh host s p :
  Consistent host s -> nextHandle s <= p -> awaiting p (pending s) = None.
Proof.
  intros Hc Hp. destruct (awaiting p (pending s)) as [k|] eqn:Hk; [|done].
  apply awaiting_elem, (consistent_pending _ _ Hc) in Hk. lia.
Qed.

Lemma awaiting_settled p ps :
  awaiting p (filter (fun qk => qk.1 <> p) ps) = None.
Proof.
  induction ps as [|[q k] ps IH]; [done|].
  rewrite filter_cons. cbn [fst].
  destruct (decide (q <> p)) as [Hqp|_]; [|done].
  cbn [awaiting]. destruct (Nat.eqb_spec p q); [congruence | done].
Qed.

Lemma warning_requested host s e :
  Consistent host s ->
  Js.truthy (csharpConfig host !! "suppressProjectJsonWarning") = false ->
  exists p,
    RequestWorkspaceInformation p ∈ calls (step (ServerStart e)) s /\
    awaiting p (pending (exec (step (ServerStart e)) s)) = Some ProjectJsonWarningThen.
Proof.
  intros Hc Hsuppress.
  rewrite (calls_step host s _ Hc), (pending_start host s e Hc). cbn [eventCalls].
  set (m := length (providerKinds (useFormatting (options s))) + nextHandle s).
  unfold startPending, startPromises. rewrite Hsuppress.
  destruct (Js.truthy (persisted host !! _)).
  - exists m. split.
    + apply elem_of_app; right. cbn. repeat constructor.
    + rewrite awaiting_app, (awaiting_fresh host s m Hc) by (unfold m; lia).
      cbn. by rewrite Nat.eqb_refl.
  - exists (S m). split.
    + apply elem_of_app; right. cbn. repeat constructor.
    + rewrite awaiting_app, (awaiting_fresh host s (S m) Hc) by (unfold m; lia).
      cbn [app imap awaiting compose Nat.add].
      destruct (Nat.eqb_spec (S m) m) as [Heq|_]; [lia|].
      by rewrite Nat.eqb_refl.
Qed.

Lemma countIf_none {A : Type} (f : A -> bool) (l : list A) (x : A) :
  countIf f l = 0 -> x ∈ l -> f x = false.
Proof.
  induction l as [|y l IH]; intros Hl Hx; [by apply elem_of_nil in Hx|].
  cbn [countIf] in Hl. apply elem_of_cons in Hx as [->|Hx].
  - destruct (f y); [discriminate | done].
  - apply IH; [lia | done].
Qed.

Lemma no_downstream_start host s e :
  countIf isDownstream (eventCalls host s (ServerStart e)) = 0.
Proof.
  unfold eventCalls. rewrite countIf_app.
  destruct host as [pers cfg opts]. unfold startPending, startPromises.
  cbn [persisted csharpConfig].
  by destruct (useFormatting (options s)), (Js.truthy (pers !! _)),
    (Js.truthy (cfg !! _)).
Qed.

Lemma no_downstream_stop host s :
  countIf isDownstream (eventCalls host s ServerStop) = 0.
Proof.
  unfold eventCalls. induction (localDisposables s) as [|d ds IH]; [done|]. exact IH.
Qed.

Lemma showWarning_downstream c : isShowWarning c = true -> isDownstream c = true.
Proof. by destruct c. Qed.

Lemma showWarning_only host s ev c :
  c ∈ eventCalls host s ev -> isShowWarning c = true ->
  exists p info,
    ev = WorkspaceInformationSettled p (Fulfilled info) /\
    awaiting p (pending s) = Some ProjectJsonWarningThen /\
    hasProjectJson info = true.
Proof.
  intros Hc Hw. destruct ev as [e| |path|p o|p o|p o].
  - apply showWarning_downstream in Hw.
    by rewrite (countIf_none _ _ _ (no_downstream_start host s e) Hc) in Hw.
  - apply showWarning_downstream in Hw.
    by rewrite (countIf_none _ _ _ (no_downstream_stop host s) Hc) in Hw.
  - apply list_elem_of_singleton in Hc as ->. discriminate.
  - cbn [eventCalls] in Hc.
    destruct (awaiting p (pending s)) as [[]|], o as [[]|];
      try (by apply elem_of_nil in Hc);
      apply list_elem_of_singleton in Hc as ->; discriminate.
  - cbn [eventCalls] in Hc.
    destruct (awaiting p (pending s)) as [[]|] eqn:Hp, o as [info|];
      try (by apply elem_of_nil in Hc);
      try (apply list_elem_of_singleton in Hc as ->; discriminate).
    destruct (hasProjectJson info) eqn:Hinfo; [|by apply elem_of_nil in Hc].
    by exists p, info.
  - cbn [eventCalls] in Hc.
    destruct (awaiting p (pending s)) as [[]|], o as [|];
      try (by apply elem_of_nil in Hc);
      repeat (apply elem_of_cons in Hc as [->|Hc]; [discriminate|]);
      by apply elem_of_nil in Hc.
Qed.

Lemma hasProjectJson_spec info :
  hasProjectJson info = true <-> dotnetProjects info <> [].
Proof.
  unfold hasProjectJson, dotnetProjects.
  destruct (DotNet info) as [[[|d dn]]|]; cbn; split; done.
Qed.

(** C4: the project.json warning.  The listener is installed by [activate]
    exactly when 'csharp.suppressProjectJsonWarning' is not set, and only
    then does a server start ask for the workspace information on its behalf.
    The warning is shown exactly when such a request is fulfilled with a
    response whose DotNet section has a non-empty project list; with the
    option set, no such request is ever pending, so no warning is shown. *)
Theorem migration_warning host evs :
  let s := after host evs in
  let suppressed := Js.truthy (csharpConfig host !! "suppressProjectJsonWarning") in
  (ProjectJsonWarning ∈ serverStartListeners s <-> suppressed = false) /\
  (forall e,
     (exists p,
        RequestWorkspaceInformation p ∈ calls (step (ServerStart e)) s /\
        awaiting p (pending (exec (step (ServerStart e)) s))
        = Some ProjectJsonWarningThen)
     <-> suppressed = false) /\
  (forall p, awaiting p (pending s) = Some ProjectJsonWarningThen -> suppressed = false) /\
  (forall p info,
     awaiting p (pending s) = Some ProjectJsonWarningThen ->
     calls (step (WorkspaceInformationSettled p (Fulfilled info))) s =
     if hasProjectJson info
     then [ShowWarningMessage (nextHandle s) shortMessage "More Detail"]
     else []) /\
  (forall ev c,
     c ∈ calls (step ev) s -> isShowWarning c = true ->
     suppressed = false /\
     exists p info,
       ev = WorkspaceInformationSettled p (Fulfilled info) /\
       awaiting p (pending s) = Some ProjectJsonWarningThen /\
       hasProjectJson info = true) /\
  (forall info, hasProjectJson info = true <-> dotnetProjects info <> []).
Proof.
  intros s suppressed.
  assert (Hc : Consistent host s) by apply after_consistent.
  assert (Hpending : forall s' p, Consistent host s' ->
            awaiting p (pending s') = Some ProjectJsonWarningThen -> suppressed = false).
  { intros s' p Hc' Hp.
    apply awaiting_elem, (consistent_promises _ _ Hc') in Hp as [Hp|Hp];
      [by apply startPromises_warning | discriminate]. }
  split; [rewrite (consistent_start _ _ Hc); apply startListenersOf_warning|].
  split.
  { intros e; split; [|by apply warning_requested].
    intros (p & _ & Hp). apply (Hpending _ p (step_consistent host _ s Hc) Hp). }
  split; [intros p; by apply Hpending|].
  split.
  { intros p info Hp. rewrite (calls_step host s _ Hc). cbn [eventCalls].
    by rewrite Hp. }
  split; [|apply hasProjectJson_spec].
  intros ev c Hin Hw. rewrite (calls_step host s _ Hc) in Hin.
  destruct (showWarning_only host s ev c Hin Hw) as (p & info & -> & Hp & Hinfo).
  split; [by apply (Hpending s p)|]. by exists p, info.
Qed.

(** ** The persisted workspace state *)

Lemma applyUpdates_app w1 w2 ws :
  applyUpdates (w1 ++ w2) ws = applyUpdates w2 (applyUpdates w1 ws).
Proof. unfold applyUpdates. apply fold_left_app. Qed.

Lemma applied_compositional :
  Compositional (fun s w s' => workspaceState s' = applyUpdates w (workspaceState s)).
Proof.
  split; [done|].
  intros s1 w1 s2 w2 s3 H12 H23. by rewrite applyUpdates_app, <- H12.
Qed.

Lemma workspaceState_step ev s :
  workspaceState (exec (step ev) s) = applyUpdates (calls (step ev) s) (workspaceState s).
Proof.
  revert ev s. apply (respects_step _ applied_compositional).
  - intros e l s; destruct l; try done.
    unfold startListener, exec, calls. rewrite registerLanguageFeatures_eq.
    simpl_state. by destruct (useFormatting (options s)).
  - intros d s; reflexivity.
  - intros path s; reflexivity.
  - intros p s; reflexivity.
  - intros o s; by destruct o as [[]|].
  - intros o s; destruct o as [info|]; [|done].
    unfold then_, projectJsonWarningThen.
    by destruct (hasProjectJson info).
  - intros o m s; by destruct o.
  - intros o s; by destruct o.
Qed.

Lemma applyUpdates_other w ws k :
  (forall key v, WorkspaceStateUpdate key v ∈ w -> key <> k) ->
  applyUpdates w ws !! k = ws !! k.
Proof.
  revert ws; induction w as [|c w IH]; intros ws Hw; [done|].
  change (applyUpdates (c :: w) ws) with (applyUpdates ([c] ++ w) ws).
  rewrite applyUpdates_app, IH.
  - destruct c; try done. cbn. apply lookup_insert_ne, (Hw key value). by left.
  - intros key v Hin. apply (Hw key v). by right.
Qed.

Lemma startListenersOf_assets host :
  AddAssets ∈ startListenersOf host
  <-> Js.truthy (persisted host !! "assetPromptDisabled") = false.
Proof.
  unfold startListenersOf.
  destruct (Js.truthy (persisted host !! _)), (Js.truthy (csharpConfig host !! _));
    cbn; split; try done; intros Hl;
    repeat (apply elem_of_cons in Hl as [Hl|Hl]; [discriminate|]);
    try (by apply elem_of_nil in Hl); repeat constructor.
Qed.

Lemma startPromises_assets host :
  AssetsThen ∈ startPromises host
  <-> Js.truthy (persisted host !! "assetPromptDisabled") = false.
Proof.
  unfold startPromises.
  destruct (Js.truthy (persisted host !! _)), (Js.truthy (csharpConfig host !! _));
    cbn; split; try done; intros Hl;
    repeat (apply elem_of_cons in Hl as [Hl|Hl]; [discriminate|]);
    try (by apply elem_of_nil in Hl); repeat constructor.
Qed.

Lemma updates_only host s ev key v :
  WorkspaceStateUpdate key v ∈ eventCalls host s ev <->
  (exists path,
     ev = BeforeServerStart path /\
     key = "lastSolutionPathOrFolder" /\ v = Js.Str path) \/
  (exists p,
     ev = AssetsSettled p (Fulfilled Disable) /\
     awaiting p (pending s) = Some AssetsThen /\
     key = "assetPromptDisabled" /\ v = Js.Bool true).
Proof.
  split.
  - intros Hc. destruct ev as [e| |path|p o|p o|p o].
    + by pose proof (countIf_none _ _ _ (no_downstream_start host s e) Hc).
    + by pose proof (countIf_none _ _ _ (no_downstream_stop host s) Hc).
    + apply list_elem_of_singleton in Hc. injection Hc as -> ->.
      left. by exists path.
    + cbn [eventCalls] in Hc.
      destruct (awaiting p (pending s)) as [[]|] eqn:Hp, o as [[]|];
        try (by apply elem_of_nil in Hc);
        apply list_elem_of_singleton in Hc; try discriminate.
      injection Hc as -> ->. right. by exists p.
    + cbn [eventCalls] in Hc.
      destruct (awaiting p (pending s)) as [[]|], o as [info|];
        try (by apply elem_of_nil in Hc);
        try (apply list_elem_of_singleton in Hc; discriminate).
      destruct (hasProjectJson info); [|by apply elem_of_nil in Hc].
      apply list_elem_of_singleton in Hc; discriminate.
    + cbn [eventCalls] in Hc.
      destruct (awaiting p (pending s)) as [[]|], o as [|];
        try (by apply elem_of_nil in Hc);
        repeat (apply elem_of_cons in Hc as [Hc|Hc]; [discriminate|]);
        by apply elem_of_nil in Hc.
  - intros [(path & -> & -> & ->)|(p & -> & Hp & -> & ->)]; cbn [eventCalls].
    + by left.
    + rewrite Hp. by left.
Qed.

Lemma workspaceState_frame host evs k :
  k <> "lastSolutionPathOrFolder" -> k <> "assetPromptDisabled" ->
  workspaceState (after host evs) !! k = persisted host !! k.
Proof.
  intros Hlast Hassets. induction evs as [|ev evs IH] using rev_ind.
  - unfold after, activated, exec. cbn [run forEach]. by rewrite activated_eq.
  - rewrite after_snoc, workspaceState_step, applyUpdates_other; [done|].
    intros key v Hin.
    rewrite (calls_step host _ _ (after_consistent host evs)) in Hin.
    apply updates_only in Hin as [(_ & _ & -> & _)|(_ & _ & _ & -> & _)]; congruence.
Qed.

Lemma assets_requested host s e :
  Consistent host s ->
  Js.truthy (persisted host !! "assetPromptDisabled") = false ->
  exists p,
    AddAssetsIfNecessary p ∈ calls (step (ServerStart e)) s /\
    awaiting p (pending (exec (step (ServerStart e)) s)) = Some AssetsThen.
Proof.
  intros Hc Hasked.
  rewrite (calls_step host s _ Hc), (pending_start host s e Hc). cbn [eventCalls].
  set (m := length (providerKinds (useFormatting (options s))) + nextHandle s).
  unfold startPending, startPromises. rewrite Hasked.
  exists m. split.
  - apply elem_of_app; right. cbn. repeat constructor.
  - rewrite awaiting_app, (awaiting_fresh host s m Hc) by (unfold m; lia).
    cbn. by rewrite Nat.eqb_refl.
Qed.

Lemma workspaceState_assets host s p result :
  Consistent host s ->
  awaiting p (pending s) = Some AssetsThen ->
  workspaceState (exec (step (AssetsSettled p (Fulfilled result))) s) =
  match result with
  | Disable => <["assetPromptDisabled" := Js.Bool true]> (workspaceState s)
  | _ => workspaceState s
  end.
Proof.
  intros Hc Hp. rewrite workspaceState_step, (calls_step host s _ Hc).
  cbn [eventCalls]. rewrite Hp. by destruct result.
Qed.

(** C5: the writes to the persisted workspace state.  A turn of the event
    loop changes the state by the calls to [update] it makes and by nothing
    else.  There are two such calls: 'lastSolutionPathOrFolder' is set to
    the path of every [onBeforeServerStart] event, and 'assetPromptDisabled'
    is set to [true] exactly when a pending call of the asset pipeline is
    fulfilled with [Disable].  The listener that starts the asset pipeline
    is installed exactly when 'assetPromptDisabled' was not truthy at
    activation: exactly then does a server start call [addAssetsIfNecessary]
    and leave its promise pending, and fulfilling that promise with
    [Disable] stores [true], while any other result stores nothing.  Every
    other key keeps the value it had at activation. *)
Theorem workspaceState_writes host evs ev :
  let s := after host evs in
  let disabled := Js.truthy (persisted host !! "assetPromptDisabled") in
  workspaceState (exec (step ev) s)
    = applyUpdates (calls (step ev) s) (workspaceState s) /\
  (forall key v,
     WorkspaceStateUpdate key v ∈ calls (step ev) s <->
     (exists path,
        ev = BeforeServerStart path /\
        key = "lastSolutionPathOrFolder" /\ v = Js.Str path) \/
     (exists p,
        ev = AssetsSettled p (Fulfilled Disable) /\
        awaiting p (pending s) = Some AssetsThen /\
        key = "assetPromptDisabled" /\ v = Js.Bool true)) /\
  (forall path,
     workspaceState (exec (step (BeforeServerStart path)) s)
     = <["lastSolutionPathOrFolder" := Js.Str path]> (workspaceState s)) /\
  (AddAssets ∈ serverStartListeners s <-> disabled = false) /\
  (forall p, awaiting p (pending s) = Some AssetsThen -> disabled = false) /\
  (forall k, k <> "lastSolutionPathOrFolder" -> k <> "assetPromptDisabled" ->
     workspaceState (exec (step ev) s) !! k = persisted host !! k) /\
  (forall e,
     (exists p,
        AddAssetsIfNecessary p ∈ calls (step (ServerStart e)) s /\
        awaiting p (pending (exec (step (ServerStart e)) s)) = Some AssetsThen)
     <-> disabled = false) /\
  (forall p result,
     awaiting p (pending s) = Some AssetsThen ->
     workspaceState (exec (step (AssetsSettled p (Fulfilled result))) s) =
     match result with
     | Disable => <["assetPromptDisabled" := Js.Bool true]> (workspaceState s)
     | _ => workspaceState s
     end).
Proof.
  intros s disabled.
  assert (Hc : Consistent host s) by apply after_consistent.
  assert (Hpending : forall s' p, Consistent host s' ->
            awaiting p (pending s') = Some AssetsThen -> disabled = false).
  { intros s' p Hc' Hp.
    apply awaiting_elem, (consistent_promises _ _ Hc') in Hp as [Hp|Hp];
      [by apply startPromises_assets | discriminate]. }
  split; [apply workspaceState_step|].
  split; [intros key v; rewrite (calls_step host s ev Hc); apply updates_only|].
  split.
  { intros path. by rewrite workspaceState_step, (calls_step host s _ Hc). }
  split; [rewrite (consistent_start _ _ Hc); apply startListenersOf_assets|].
  split; [intros p; by apply Hpending|].
  split.
  { intros k Hlast Hassets. unfold s. rewrite <- after_snoc.
    by apply workspaceState_frame. }
  split.
  { intros e; split; [|by apply assets_requested].
    intros (p & _ & Hp). apply (Hpending _ p (step_consistent host _ s Hc) Hp). }
  intros p result Hp. by apply (workspaceState_assets host).
Qed.

(** ** Registrations *)

Lemma registrationsOf_other host s ev :
  isServerStart ev = false -> registrationsOf (eventCalls host s ev) = [].
Proof.
  intros Hev. destruct ev as [e| |path|p o|p o|p o]; try discriminate;
    unfold eventCalls.
  - induction (localDisposables s) as [|d ds IH]; [done|]. exact IH.
  - done.
  - by destruct (awaiting p (pending s)) as [[]|], o as [[]|].
  - destruct (awaiting p (pending s)) as [[]|], o as [info|]; try done.
    by destruct (hasProjectJson info).
  - by destruct (awaiting p (pending s)) as [[]|], o as [|].
Qed.

Lemma registrationsOf_start host s e :
  registrationsOf (eventCalls host s (ServerStart e))
  = omap (fun k => match k with Registered r => Some r | _ => None end)
      (providerKinds (useFormatting (options s))).
Proof.
  unfold eventCalls, registrationsOf. rewrite omap_app.
  destruct host as [pers cfg opts]. unfold startPending, startPromises.
  cbn [persisted csharpConfig].
  by destruct (useFormatting (options s)), (Js.truthy (pers !! _)),
    (Js.truthy (cfg !! _)).
Qed.

(** C6, as amended: a server start registers the formatting providers
    exactly when [options.useFormatting] is set: then the document range
    formatting provider and the on-type formatting provider, the latter
    triggered by '}' and ';', both for C# files from disk; otherwise
    neither. *)
Theorem formatting_follows_option host evs e :
  List.filter isFormatting
    (registrationsOf (calls (step (ServerStart e)) (after host evs)))
  = if useFormatting (hostOptions host)
    then [ {| feature := DocumentRangeFormattingEditProvider;
              selector := Some documentSelector;
              triggerCharacters := [] |};
           {| feature := OnTypeFormattingEditProvider;
              selector := Some documentSelector;
              triggerCharacters := ["}"; ";"] |} ]
    else [].
Proof.
  pose proof (after_consistent host evs) as Hc.
  rewrite (calls_step host _ _ Hc), registrationsOf_start.
  rewrite (consistent_options _ _ Hc).
  by destruct (useFormatting (hostOptions host)).
Qed.

(** C10: every registration that takes a document selector is made for C#
    files from disk, except the second one, which registers the definition
    provider for the scheme of the metadata document provider.  Only a server
    start registers anything; its first two registrations are those of the
    definition provider, and each of the others either has the selector
    { language: 'csharp', scheme: 'file' } or is the registration of the
    workspace symbol provider, which takes no selector. *)
Theorem selectors_are_csharp_files host evs ev :
  let rs := registrationsOf (calls (step ev) (after host evs)) in
  if isServerStart ev then
    exists rest,
      rs = {| feature := DefinitionProvider;
              selector := Some {| language := Some "csharp"; scheme := Some "file" |};
              triggerCharacters := [] |}
           :: {| feature := DefinitionProvider;
                 selector := Some {| language := None; scheme := Some metadataScheme |};
                 triggerCharacters := [] |}
           :: rest /\
      Forall fileSelector rest
  else rs = [].
Proof.
  intros rs. unfold rs.
  pose proof (after_consistent host evs) as Hc.
  rewrite (calls_step host _ _ Hc).
  destruct (isServerStart ev) eqn:Hev; [|by apply registrationsOf_other].
  destruct ev as [e| | | | |]; try discriminate.
  rewrite registrationsOf_start.
  destruct (useFormatting (options (after host evs)));
    (eexists; split; [reflexivity|]; repeat constructor).
Qed.

(** ** Rejected promises *)

(** C7: no callback of [activate] handles a rejection.  When the asset
    pipeline or a workspace-information request (that of the warning or that
    of the telemetry) is rejected, the rejection is left to the host and
    nothing else happens: no warning is shown, no telemetry event is sent,
    the persisted state is not updated, and the promise, being settled, will
    not run its callback later. *)
Theorem rejections_unhandled s p reason :
  let a := exec (step (AssetsSettled p (Rejected reason))) s in
  let w := exec (step (WorkspaceInformationSettled p (Rejected reason))) s in
  calls (step (AssetsSettled p (Rejected reason))) s
    = match awaiting p (pending s) with
      | Some AssetsThen => [UnhandledRejection reason]
      | _ => []
      end /\
  calls (step (WorkspaceInformationSettled p (Rejected reason))) s
    = match awaiting p (pending s) with
      | Some ProjectJsonWarningThen => [UnhandledRejection reason]
      | Some (TelemetryThen _) => [UnhandledRejection reason]
      | _ => []
      end /\
  countIf isDownstream (calls (step (AssetsSettled p (Rejected reason))) s) = 0 /\
  countIf isDownstream
    (calls (step (WorkspaceInformationSettled p (Rejected reason))) s) = 0 /\
  unaffected s a /\
  unaffected s w /\
  pending a = match awaiting p (pending s) with
              | Some AssetsThen => filter (fun qk => qk.1 <> p) (pending s)
              | _ => pending s
              end /\
  pending w = match awaiting p (pending s) with
              | Some ProjectJsonWarningThen => filter (fun qk => qk.1 <> p) (pending s)
              | Some (TelemetryThen _) => filter (fun qk => qk.1 <> p) (pending s)
              | _ => pending s
              end /\
  awaiting p (filter (fun qk => qk.1 <> p) (pending s)) = None.
Proof.
  intros a w. unfold a, w, exec, calls, step. rewrite !bind_get.
  destruct (awaiting p (pending s)) as [[]|];
    repeat split; try reflexivity; apply awaiting_settled.
Qed.

(** * Further properties *)

(** ** Size and order of the local disposable list *)

Lemma exec_dispose (ds : list Disposable) s :
  exec (forEach (fun d => call (Dispose (handle d))) ds) s = s.
Proof.
  induction ds as [|d ds IH]; [reflexivity|].
  rewrite exec_forEach_cons. exact IH.
Qed.

Lemma exec_stopListeners (ls : list StopListener) s :
  exec (forEach stopListener ls) s = s.
Proof.
  induction ls as [|[] ls IH]; [reflexivity|].
  rewrite exec_forEach_cons.
  assert (Hone : exec (stopListener DisposeLanguageFeatures) s = s).
  { unfold stopListener, disposeLanguageFeatures, exec. rewrite bind_get.
    apply exec_dispose. }
  by rewrite Hone.
Qed.

Lemma localDisposables_other ev s :
  isServerStart ev = false ->
  localDisposables (exec (step ev) s) = localDisposables s.
Proof.
  intros Hev. revert s.
  apply (respects_other (fun s _ s' => localDisposables s' = localDisposables s));
    [split; [done | congruence] | | | | | | | | exact Hev].
  - intros d s; reflexivity.
  - intros path s; reflexivity.
  - intros p s; reflexivity.
  - intros o s; by destruct o as [[]|].
  - intros o s; destruct o as [info|]; [|done].
    unfold then_, projectJsonWarningThen.
    by destruct (hasProjectJson info).
  - intros o m s; by destruct o.
  - intros o s; by destruct o.
Qed.

Lemma length_providerKinds fmt :
  length (providerKinds fmt) = if fmt then 20 else 18.
Proof. by destruct fmt. Qed.

Lemma length_localDisposables host evs :
  length (localDisposables (after host evs))
  = countIf isServerStart evs * length (providerKinds (useFormatting (hostOptions host))).
Proof.
  induction evs as [|ev evs IH] using rev_ind.
  - rewrite after_nil. unfold activated, exec. by rewrite activated_eq.
  - rewrite after_snoc, countIf_app. cbn [countIf].
    destruct (isServerStart ev) eqn:Hev.
    + destruct ev as [e| | | | |]; try discriminate.
      rewrite (localDisposables_start host _ e (after_consistent host evs)).
      rewrite length_app, IH. unfold languageFeatures. rewrite length_imap. lia.
    + rewrite (localDisposables_other ev _ Hev), IH. lia.
Qed.

(** X1: the size of [localDisposables] is the number of server starts
    delivered so far times the number of disposables one start creates (20
    with formatting, 18 without); a server stop makes that many calls to
    [dispose], none if the server has not started yet; the other events leave
    the list as it is. *)
Theorem localDisposables_size host evs ev :
  let s := after host evs in
  let perStart := if useFormatting (hostOptions host) then 20 else 18 in
  length (localDisposables s) = countIf isServerStart evs * perStart /\
  length (calls (step ServerStop) s) = countIf isServerStart evs * perStart /\
  (countIf isServerStart evs = 0 -> calls (step ServerStop) s = []) /\
  (isServerStart ev = false ->
   localDisposables (exec (step ev) s) = localDisposables s).
Proof.
  intros s perStart.
  assert (Hlen : length (localDisposables s) = countIf isServerStart evs * perStart).
  { unfold s, perStart. by rewrite length_localDisposables, length_providerKinds. }
  assert (Hstop : calls (step ServerStop) s
                  = (fun d => Dispose (handle d)) <$> localDisposables s)
    by apply (calls_step host s ServerStop), after_consistent.
  split; [exact Hlen|].
  split; [by rewrite Hstop, length_fmap|].
  split; [|apply localDisposables_other].
  intros Hnone. rewrite Hstop. rewrite Hnone in Hlen.
  by destruct (localDisposables s).
Qed.





(** X10: a server stop only calls [dispose]: it changes nothing in the
    state of the extension.  The list of disposables is not emptied and no
    pending request is cancelled, so whatever is delivered after the stop is
    handled exactly as it would have been before it. *)
Theorem stop_changes_nothing s ev :
  exec (step ServerStop) s = s /\
  calls (step ev) (exec (step ServerStop) s) = calls (step ev) s /\
  exec (step ev) (exec (step ServerStop) s) = exec (step ev) s.
Proof.
  assert (Hstop : exec (step ServerStop) s = s).
  { unfold step, exec. rewrite bind_get. apply exec_stopListeners. }
  by rewrite Hstop.
Qed.

(** ** The warning, from the request to the output channel *)

Lemma awaiting_settled_fresh host s p q :
  Consistent host s -> nextHandle s <= q ->
  awaiting q (filter (fun qk => qk.1 <> p) (pending s)) = None.
Proof.
  intros Hc Hq.
  destruct (awaiting q (filter (fun qk => qk.1 <> p) (pending s))) as [k|] eqn:Hk;
    [|done].
  apply awaiting_elem, list_elem_of_filter in Hk as [_ Hk].
  apply (consistent_pending _ _ Hc) in Hk. lia.
Qed.

Lemma pending_warning_shown s p info :
  awaiting p (pending s) = Some ProjectJsonWarningThen ->
  hasProjectJson info = true ->
  pending (exec (step (WorkspaceInformationSettled p (Fulfilled info))) s)
  = filter (fun qk => qk.1 <> p) (pending s) ++ [(nextHandle s, WarningItemThen)].
Proof.
  intros Hp Hinfo. unfold exec, step. rewrite bind_get, Hp.
  run_monad. unfold projectJsonWarningThen. rewrite Hinfo. reflexivity.
Qed.

(** X3: once the warning is shown, the detailed message is written to the
    output channel and the channel is shown as soon as the warning is closed,
    whatever the user chose: the 'More Detail' item or no item at all
    (dismissal).  A rejection of the message promise writes nothing. *)
Theorem warning_detail_whatever_item host evs p info item reason :
  let s := after host evs in
  let s1 := exec (step (WorkspaceInformationSettled p (Fulfilled info))) s in
  awaiting p (pending s) = Some ProjectJsonWarningThen ->
  hasProjectJson info = true ->
  calls (step (WorkspaceInformationSettled p (Fulfilled info))) s
    = [ShowWarningMessage (nextHandle s) shortMessage "More Detail"] /\
  calls (step (WarningMessageSettled (nextHandle s) (Fulfilled item))) s1
    = [ChannelAppendLine detailedMessage; ChannelShow] /\
  calls (step (WarningMessageSettled (nextHandle s) (Rejected reason))) s1
    = [UnhandledRejection reason].
Proof.
  intros s s1 Hp Hinfo.
  assert (Hc : Consistent host s) by apply after_consistent.
  assert (Hc1 : Consistent host s1) by (by apply step_consistent).
  assert (Hitem : awaiting (nextHandle s) (pending s1) = Some WarningItemThen).
  { unfold s1. rewrite (pending_warning_shown s p info Hp Hinfo), awaiting_app.
    rewrite (awaiting_settled_fresh host s p (nextHandle s) Hc) by lia.
    cbn. by rewrite Nat.eqb_refl. }
  rewrite !(calls_step host s1 _ Hc1), (calls_step host s _ Hc).
  cbn [eventCalls]. by rewrite Hp, Hinfo, Hitem.
Qed.

Lemma warning_calls host s ev :
  countIf isShowWarning (eventCalls host s ev) =
  match ev with
  | WorkspaceInformationSettled p (Fulfilled info) =>
      match awaiting p (pending s) with
      | Some ProjectJsonWarningThen => if hasProjectJson info then 1 else 0
      | _ => 0
      end
  | _ => 0
  end.
Proof.
  destruct ev as [e| |path|p o|p o|p o]; unfold eventCalls.
  - rewrite countIf_app.
    destruct host as [pers cfg opts]. unfold startPending, startPromises.
    cbn [persisted csharpConfig].
    by destruct (useFormatting (options s)), (Js.truthy (pers !! _)),
      (Js.truthy (cfg !! _)).
  - induction (localDisposables s) as [|d ds IH]; [done|]. exact IH.
  - done.
  - by destruct (awaiting p (pending s)) as [[]|], o as [[]|].
  - destruct (awaiting p (pending s)) as [[]|], o as [info|]; try done.
    by destruct (hasProjectJson info).
  - by destruct (awaiting p (pending s)) as [[]|], o as [|].
Qed.

Lemma warning_startPending host h :
  countIf isWarningThen (startPending host h)
  = if Js.truthy (csharpConfig host !! "suppressProjectJsonWarning") then 0 else 1.
Proof.
  destruct host as [pers cfg opts]. unfold startPending, startPromises.
  cbn [persisted csharpConfig].
  by destruct (Js.truthy (pers !! _)), (Js.truthy (cfg !! _)).
Qed.

Lemma pending_lifecycle ev s :
  ev = ServerStop \/ (exists path, ev = BeforeServerStart path) ->
  pending (exec (step ev) s) = pending s.
Proof.
  intros [->|[path ->]]; revert s.
  - apply (respects_stop (fun s _ s' => pending s' = pending s)); [|done].
    split; [done | congruence].
  - apply (respects_before (fun s _ s' => pending s' = pending s)); [|done].
    split; [done | congruence].
Qed.

Lemma warning_step host s ev :
  Consistent host s ->
  countIf isShowWarning (calls (step ev) s)
  + countIf isWarningThen (pending (exec (step ev) s))
  <= countIf isWarningThen (pending s)
     + (if isServerStart ev
        then if Js.truthy (csharpConfig host !! "suppressProjectJsonWarning")
             then 0 else 1
        else 0).
Proof.
  intros Hc. rewrite (calls_step host s ev Hc), warning_calls.
  destruct ev as [e| |path|p o|p o|p o]; cbn [isServerStart].
  - rewrite (pending_start host s e Hc), countIf_app, warning_startPending. lia.
  - rewrite pending_lifecycle by (by left). lia.
  - rewrite pending_lifecycle by (right; by exists path). lia.
  - unfold exec, step. rewrite bind_get.
    destruct (awaiting p (pending s)) as [[]|]; try (run_monad; lia).
    pose proof (countIf_settled isWarningThen p (pending s)).
    destruct o as [[]|]; run_monad; lia.
  - unfold exec, step. rewrite bind_get.
    destruct (awaiting p (pending s)) as [[| |m|]|] eqn:Hp.
    + destruct o; run_monad; lia.
    + pose proof (countIf_settled_awaiting isWarningThen p _ _ Hp eq_refl).
      destruct o as [info|]; [|run_monad; lia].
      run_monad. unfold projectJsonWarningThen.
      destruct (hasProjectJson info); run_monad; [|lia].
      rewrite countIf_app. cbn. lia.
    + pose proof (countIf_settled isWarningThen p (pending s)).
      destruct o as [info|]; run_monad; lia.
    + destruct o; run_monad; lia.
    + destruct o; run_monad; lia.
  - unfold exec, step. rewrite bind_get.
    destruct (awaiting p (pending s)) as [[]|]; try (run_monad; lia).
    pose proof (countIf_settled isWarningThen p (pending s)).
    destruct o as [|]; run_monad; lia.
Qed.

Lemma warning_run host evs :
  countIf isShowWarning (history host evs)
  + countIf isWarningThen (pending (after host evs))
  <= if Js.truthy (csharpConfig host !! "suppressProjectJsonWarning")
     then 0 else countIf isServerStart evs.
Proof.
  induction evs as [|ev evs IH] using rev_ind.
  - unfold history, after, activated, exec, calls. rewrite activated_eq. cbn.
    destruct (Js.truthy _); lia.
  - rewrite history_snoc, after_snoc, !countIf_app. cbn [countIf].
    pose proof (warning_step host (after host evs) ev (after_consistent host evs)).
    destruct (Js.truthy (csharpConfig host !! _)), (isServerStart ev); lia.
Qed.

(** X4: the warning is not shown once per activation but once per server
    start whose request is answered with project.json projects.  A turn of
    the event loop shows one warning when a pending request of the warning
    listener is fulfilled with such a response, and none otherwise.  Unless
    'csharp.suppressProjectJsonWarning' was set at activation, every server
    start, also one that follows a warning already shown, makes a request
    whose fulfilment with such a response shows the warning again.  So the
    number of warnings shown never exceeds the number of server starts
    delivered, and it is zero, whatever the server answers, when the option
    was set. *)
Theorem warnings_bounded_by_starts host evs :
  let s := after host evs in
  let suppressed := Js.truthy (csharpConfig host !! "suppressProjectJsonWarning") in
  (forall ev,
     countIf isShowWarning (calls (step ev) s) =
     match ev with
     | WorkspaceInformationSettled p (Fulfilled info) =>
         match awaiting p (pending s) with
         | Some ProjectJsonWarningThen => if hasProjectJson info then 1 else 0
         | _ => 0
         end
     | _ => 0
     end) /\
  (forall e info,
     suppressed = false -> hasProjectJson info = true ->
     exists p,
       RequestWorkspaceInformation p ∈ calls (step (ServerStart e)) s /\
       awaiting p (pending (exec (step (ServerStart e)) s))
       = Some ProjectJsonWarningThen /\
       calls (step (WorkspaceInformationSettled p (Fulfilled info)))
         (exec (step (ServerStart e)) s)
       = [ShowWarningMessage (nextHandle (exec (step (ServerStart e)) s))
            shortMessage "More Detail"]) /\
  countIf isShowWarning (history host evs) <= countIf isServerStart evs /\
  (suppressed = true -> countIf isShowWarning (history host evs) = 0).
Proof.
  intros s suppressed.
  assert (Hc : Consistent host s) by apply after_consistent.
  split.
  { intros ev. rewrite (calls_step host s ev Hc). apply warning_calls. }
  split.
  { intros e info Hsuppressed Hinfo.
    destruct (warning_requested host s e Hc Hsuppressed) as (p & Hrequest & Hp).
    exists p. split; [exact Hrequest|]. split; [exact Hp|].
    rewrite (calls_step host _ _ (step_consistent host (ServerStart e) s Hc)).
    cbn [eventCalls]. by rewrite Hp, Hinfo. }
  pose proof (warning_run host evs) as Hrun. fold suppressed in Hrun.
  destruct suppressed; split; try done; lia.
Qed.

(** ** The persisted state across activations *)

Lemma applyUpdates_truthy w ws k :
  (forall v, WorkspaceStateUpdate k v ∈ w -> Js.truthy (Some v) = true) ->
  Js.truthy (ws !! k) = true ->
  Js.truthy (applyUpdates w ws !! k) = true.
Proof.
  revert ws; induction w as [|c w IH]; intros ws Hw Hk; [done|].
  change (applyUpdates (c :: w) ws) with (applyUpdates ([c] ++ w) ws).
  rewrite applyUpdates_app. apply IH.
  - intros v Hv. apply Hw. by right.
  - destruct c; try done. cbn.
    destruct (decide (key = k)) as [->|Hne].
    + rewrite lookup_insert_eq. apply Hw. by left.
    + by rewrite lookup_insert_ne.
Qed.

Lemma assetPromptDisabled_step host s ev :
  Consistent host s ->
  Js.truthy (workspaceState s !! "assetPromptDisabled") = true ->
  Js.truthy (workspaceState (exec (step ev) s) !! "assetPromptDisabled") = true.
Proof.
  intros Hc Hk. rewrite workspaceState_step. apply applyUpdates_truthy; [|done].
  intros v Hv. rewrite (calls_step host s ev Hc) in Hv.
  apply updates_only in Hv as [(_ & _ & Hkey & _)|(_ & _ & _ & _ & ->)];
    [discriminate | done].
Qed.

(** X5: 'assetPromptDisabled' is never reset: once it is truthy in the
    persisted state, it stays truthy whatever is delivered afterwards; and it
    is truthy as soon as a pending asset pipeline is fulfilled with
    [Disable]. *)
Theorem assetPromptDisabled_never_reset host evs evs' p :
  let s := after host evs in
  (Js.truthy (workspaceState s !! "assetPromptDisabled") = true ->
   Js.truthy (workspaceState (after host (evs ++ evs')) !! "assetPromptDisabled")
   = true) /\
  (awaiting p (pending s) = Some AssetsThen ->
   Js.truthy
     (workspaceState (exec (step (AssetsSettled p (Fulfilled Disable))) s)
      !! "assetPromptDisabled") = true).
Proof.
  intros s. split.
  - intros Hk. induction evs' as [|ev evs' IH] using rev_ind.
    + by rewrite app_nil_r.
    + rewrite app_assoc, after_snoc.
      apply (assetPromptDisabled_step host); [apply after_consistent | exact IH].
  - intros Hp.
    rewrite workspaceState_step, (calls_step host s _ (after_consistent host evs)).
    cbn [eventCalls]. rewrite Hp. cbn. by rewrite lookup_insert_eq.
Qed.

Lemma addAssets_calls host s ev :
  countIf isAddAssets (eventCalls host s ev) =
  if isServerStart ev
  then if Js.truthy (persisted host !! "assetPromptDisabled") then 0 else 1
  else 0.
Proof.
  destruct ev as [e| |path|p o|p o|p o]; unfold eventCalls; cbn [isServerStart].
  - rewrite countIf_app.
    destruct host as [pers cfg opts]. unfold startPending, startPromises.
    cbn [persisted csharpConfig].
    by destruct (useFormatting (options s)), (Js.truthy (pers !! _)),
      (Js.truthy (cfg !! _)).
  - induction (localDisposables s) as [|d ds IH]; [done|]. exact IH.
  - done.
  - by destruct (awaiting p (pending s)) as [[]|], o as [[]|].
  - destruct (awaiting p (pending s)) as [[]|], o as [info|]; try done.
    by destruct (hasProjectJson info).
  - by destruct (awaiting p (pending s)) as [[]|], o as [|].
Qed.

Lemma addAssets_history host evs :
  Js.truthy (persisted host !! "assetPromptDisabled") = true ->
  countIf isAddAssets (history host evs) = 0.
Proof.
  intros Hk. induction evs as [|ev evs IH] using rev_ind; [done|].
  rewrite history_snoc, countIf_app, IH.
  rewrite (calls_step host _ ev (after_consistent host evs)), addAssets_calls, Hk.
  by destruct (isServerStart ev).
Qed.

(** X6: the answer [Disable] takes effect at the next activation only.
    The test of 'assetPromptDisabled' is made once, by [activate]: if the key
    was not truthy then, every server start of this activation runs the asset
    pipeline, also after [Disable] has been stored; an activation that finds
    the key truthy in the state left behind installs no such listener and
    never runs the pipeline. *)
Theorem disable_applies_to_next_activation host evs evs' e :
  let ws := workspaceState (after host evs) in
  (Js.truthy (persisted host !! "assetPromptDisabled") = false ->
   countIf isAddAssets (calls (step (ServerStart e)) (after host evs)) = 1) /\
  (Js.truthy (ws !! "assetPromptDisabled") = true ->
   (AddAssets ∉ serverStartListeners (after (reactivated host ws) evs')) /\
   countIf isAddAssets (history (reactivated host ws) evs') = 0).
Proof.
  intros ws. split.
  - intros Hk.
    rewrite (calls_step host _ _ (after_consistent host evs)), addAssets_calls.
    cbn [isServerStart]. by rewrite Hk.
  - intros Hk. split; [|by apply addAssets_history].
    rewrite (consistent_start _ _ (after_consistent (reactivated host ws) evs')).
    rewrite startListenersOf_assets. cbn [reactivated persisted]. by rewrite Hk.
Qed.

Lemma lastPath_snoc evs ev :
  lastPath (evs ++ [ev]) =
  match ev with
  | BeforeServerStart path => Some path
  | _ => lastPath evs
  end.
Proof.
  induction evs as [|ev' evs IH]; cbn [app lastPath].
  - by destruct ev.
  - rewrite IH. destruct ev; try done.
Qed.

Lemma lastSolutionPath_after host evs :
  workspaceState (after host evs) !! "lastSolutionPathOrFolder" =
  match lastPath evs with
  | Some path => Some (Js.Str path)
  | None => persisted host !! "lastSolutionPathOrFolder"
  end.
Proof.
  induction evs as [|ev evs IH] using rev_ind.
  - rewrite after_nil. unfold activated, exec. by rewrite activated_eq.
  - rewrite after_snoc, lastPath_snoc, workspaceState_step.
    rewrite (calls_step host _ ev (after_consistent host evs)).
    destruct ev as [e| |path|p o|p o|p o];
      try (rewrite applyUpdates_other; [exact IH|];
           intros key v Hv; apply updates_only in Hv
             as [(? & ? & _)|(_ & _ & _ & -> & _)]; done).
    cbn. by rewrite lookup_insert_eq.
Qed.

(** X7: 'lastSolutionPathOrFolder' round trip.  The persisted value is the
    path of the last [onBeforeServerStart] event delivered, or the value
    found at activation if there was none; the next activation hands exactly
    that value to [server.autoStart] when [options.autoStart] is set, and
    does not call it otherwise. *)
Theorem lastSolutionPath_round_trip host evs :
  let ws := workspaceState (after host evs) in
  let stored :=
    match lastPath evs with
    | Some path => Some (Js.Str path)
    | None => persisted host !! "lastSolutionPathOrFolder"
    end in
  ws !! "lastSolutionPathOrFolder" = stored /\
  calls (activate (csharpConfig host)) (initial (reactivated host ws))
  = [RegisterCommands; ReportStatus]
    ++ (if autoStart (hostOptions host) then [ServerAutoStart stored] else [])
    ++ [RegisterDebugConfigurationProvider "coreclr"].
Proof.
  intros ws stored.
  assert (Hstored : ws !! "lastSolutionPathOrFolder" = stored)
    by apply lastSolutionPath_after.
  split; [exact Hstored|].
  unfold calls.
  change (csharpConfig host) with (csharpConfig (reactivated host ws)).
  rewrite (activated_eq (reactivated host ws)).
  cbn [snd reactivated persisted hostOptions].
  by rewrite Hstored.
Qed.

(** X9: the workspace information is asked for by each listener on its
    own: a server start makes two requests, one for the warning and one for
    the telemetry, and a single one when the warning is suppressed; no other
    event makes any. *)
Theorem requests_per_start host evs ev :
  countIf isRequestWorkspaceInformation (calls (step ev) (after host evs)) =
  if isServerStart ev
  then if Js.truthy (csharpConfig host !! "suppressProjectJsonWarning") then 1 else 2
  else 0.
Proof.
  rewrite (calls_step host _ ev (after_consistent host evs)).
  destruct ev as [e| |path|p o|p o|p o]; unfold eventCalls; cbn [isServerStart].
  - rewrite countIf_app.
    destruct host as [pers cfg opts]. unfold startPending, startPromises.
    cbn [persisted csharpConfig].
    by destruct (useFormatting (options _)), (Js.truthy (pers !! _)),
      (Js.truthy (cfg !! _)).
  - induction (localDisposables _) as [|d ds IH]; [done|]. exact IH.
  - done.
  - by destruct (awaiting p (pending _)) as [[]|], o as [[]|].
  - destruct (awaiting p (pending _)) as [[]|], o as [info|]; try done.
    by destruct (hasProjectJson info).
  - by destruct (awaiting p (pending _)) as [[]|], o as [|].
Qed.

(** ** Shape of the measures *)

Lemma whenNonEmpty_Some {P : Type} (projects : list P) (measure n : nat) :
  whenNonEmpty projects measure = Some n -> projects <> [] /\ n = measure.
Proof. destruct projects; [discriminate|]. by intros [= <-]. Qed.

(** X8: the measures are consistent with each other.  A project count
    that is present is positive; the numbers of Unity projects and of .NET
    Core projects are present with the MSBuild project count and do not
    exceed it; and the measures are empty exactly when the response has
    neither project.json nor MSBuild projects (the event is then sent with no
    measure). *)
Theorem measures_shape info n :
  let measures := fillMeasures ∅ info in
  (measures !! "projectjson.projectcount" = Some n -> 0 < n) /\
  (measures !! "msbuild.projectcount" = Some n ->
   0 < n /\
   exists unity netcore,
     measures !! "msbuild.unityprojectcount" = Some unity /\
     measures !! "msbuild.netcoreprojectcount" = Some netcore /\
     unity <= n /\ netcore <= n) /\
  (measures = ∅ <-> dotnetProjects info = [] /\ msbuildProjects info = []).
Proof.
  intros measures.
  destruct (fillMeasures_lookup info) as (Hdn & _ & Hms & _ & Hunity & Hnetcore).
  fold measures in Hdn, Hms, Hunity, Hnetcore.
  split; [|split].
  - rewrite Hdn. intros [Hne ->]%whenNonEmpty_Some.
    destruct (dotnetProjects info); [done | cbn; lia].
  - rewrite Hms. intros [Hne ->]%whenNonEmpty_Some.
    rewrite Hunity, Hnetcore.
    destruct (msbuildProjects info) as [|m ms] eqn:Hprojects; [done|].
    split; [cbn; lia|].
    eexists _, _. split; [reflexivity|]. split; [reflexivity|].
    split; apply length_filter.
  - split.
    + intros Hempty. rewrite Hempty, lookup_empty in Hdn, Hms.
      split.
      * by destruct (dotnetProjects info).
      * by destruct (msbuildProjects info).
    + intros [Hdotnet Hmsbuild]. apply dom_empty_iff_L.
      unfold measures. rewrite fillMeasures_dom, Hdotnet, Hmsbuild.
      cbn. apply (left_id_L ∅ (∪)).
Qed.

(** ** What a telemetry event carries *)

Lemma telemetry_only host s ev name measures :
  Consistent host s ->
  SendTelemetryEvent name measures ∈ eventCalls host s ev ->
  name = "OmniSharp.Start" /\
  exists p info,
    ev = WorkspaceInformationSettled p (Fulfilled info) /\
    awaiting p (pending s) = Some (TelemetryThen ∅) /\
    measures = fillMeasures ∅ info.
Proof.
  intros Hcs Hc. destruct ev as [e| |path|p o|p o|p o].
  - by pose proof (countIf_none _ _ _ (no_downstream_start host s e) Hc).
  - by pose proof (countIf_none _ _ _ (no_downstream_stop host s) Hc).
  - apply list_elem_of_singleton in Hc. discriminate.
  - cbn [eventCalls] in Hc.
    destruct (awaiting p (pending s)) as [[]|], o as [[]|];
      try (by apply elem_of_nil in Hc);
      apply list_elem_of_singleton in Hc; discriminate.
  - cbn [eventCalls] in Hc.
    destruct (awaiting p (pending s)) as [[| |m|]|] eqn:Hp, o as [info|];
      try (by apply elem_of_nil in Hc);
      try (apply list_elem_of_singleton in Hc; discriminate).
    + destruct (hasProjectJson info); [|by apply elem_of_nil in Hc].
      apply list_elem_of_singleton in Hc; discriminate.
    + apply list_elem_of_singleton in Hc. injection Hc as -> ->.
      assert (Hm : m = ∅).
      { apply awaiting_elem, (consistent_promises _ _ Hcs) in Hp as [Hp|Hp];
          [by apply (startPromises_measures host) | discriminate]. }
      subst m. split; [done|]. by exists p, info.
  - cbn [eventCalls] in Hc.
    destruct (awaiting p (pending s)) as [[]|], o as [|];
      try (by apply elem_of_nil in Hc);
      repeat (apply elem_of_cons in Hc as [Hc|Hc]; [discriminate|]);
      by apply elem_of_nil in Hc.
Qed.

(** X11: no other telemetry event is sent by the activation, and the
    measures never accumulate: whenever a telemetry event is sent, it is
    'OmniSharp.Start', it answers a pending request of the telemetry listener
    that has just been fulfilled, and its measures are computed from that
    response alone, starting from an empty object. *)
Theorem telemetry_carries_one_response host evs ev name measures :
  SendTelemetryEvent name measures ∈ calls (step ev) (after host evs) ->
  name = "OmniSharp.Start" /\
  exists p info,
    ev = WorkspaceInformationSettled p (Fulfilled info) /\
    awaiting p (pending (after host evs)) = Some (TelemetryThen ∅) /\
    measures = fillMeasures ∅ info.
Proof.
  pose proof (after_consistent host evs) as Hc.
  rewrite (calls_step host _ ev Hc). by apply telemetry_only.
Qed.

End Activate.

(** * The properties at work on sample runs *)

(** C8 on a run where the workspace path is stored before the server starts
    twice: the promise carries the payload of the first start. *)
Lemma activate_promise_first_start_witness :
  Forall (fun ev => isServerStart ev = false) [BeforeServerStart "/work"] /\
  activation
    (after targetsNetCoreApp "omnisharp-metadata" freshHost
       [BeforeServerStart "/work"; ServerStart "ready"; ServerStop; ServerStart "again"])
  = Some "ready".
Proof.
  assert (Hpre : Forall (fun ev => isServerStart ev = false) [BeforeServerStart "/work"])
    by (repeat constructor).
  split; [exact Hpre|].
  destruct (activate_promise_first_start targetsNetCoreApp "omnisharp-metadata" freshHost
              [BeforeServerStart "/work"; ServerStart "ready"; ServerStop; ServerStart "again"])
    as (_ & _ & Hfirst).
  destruct (Hfirst [BeforeServerStart "/work"] "ready" [ServerStop; ServerStart "again"]
              eq_refl Hpre) as (_ & _ & Hresolved).
  exact Hresolved.
Defined.

(** C1 on the first server start of a fresh workspace: the implementation
    provider gets handle 3 and is disposed by a server stop that comes after
    a change of workspace path. *)
Lemma start_registers_stop_disposes_witness :
  {| handle := 3;
     what := Registered {| feature := ImplementationProvider;
                           selector := Some documentSelector;
                           triggerCharacters := [] |} |}
    ∈ languageFeatures "omnisharp-metadata" 0 true /\
  Dispose 3 ∈
    calls (step targetsNetCoreApp "omnisharp-metadata" ServerStop)
      (exec (run targetsNetCoreApp "omnisharp-metadata" [BeforeServerStart "/work"])
         (exec (step targetsNetCoreApp "omnisharp-metadata" (ServerStart "ready"))
            (after targetsNetCoreApp "omnisharp-metadata" freshHost []))).
Proof.
  assert (Hd : {| handle := 3;
                  what := Registered {| feature := ImplementationProvider;
                                        selector := Some documentSelector;
                                        triggerCharacters := [] |} |}
                 ∈ languageFeatures "omnisharp-metadata" 0 true)
    by (vm_compute; repeat constructor).
  split; [exact Hd|].
  destruct (start_registers_stop_disposes targetsNetCoreApp "omnisharp-metadata"
              freshHost [] "ready")
    as (_ & _ & _ & _ & _ & _ & _ & _ & Hstop).
  exact (Hstop [BeforeServerStart "/work"] _ Hd).
Defined.

(** C9 on a start followed by a stop: the metadata document provider has
    been disposed, and a second stop disposes it again. *)
Lemma localDisposables_never_cleared_witness :
  Dispose 0 ∈
    history targetsNetCoreApp "omnisharp-metadata" freshHost
      [ServerStart "ready"; ServerStop] /\
  Dispose 0 ∈
    calls (step targetsNetCoreApp "omnisharp-metadata" ServerStop)
      (after targetsNetCoreApp "omnisharp-metadata" freshHost
         [ServerStart "ready"; ServerStop]).
Proof.
  assert (Hdisposed : Dispose 0 ∈
            history targetsNetCoreApp "omnisharp-metadata" freshHost
              [ServerStart "ready"; ServerStop])
    by (vm_compute; repeat constructor).
  split; [exact Hdisposed|].
  destruct (localDisposables_never_cleared targetsNetCoreApp "omnisharp-metadata"
              freshHost [ServerStart "ready"; ServerStop] ServerStop)
    as (_ & _ & _ & Hagain).
  exact (Hagain 0 Hdisposed).
Defined.

(** C3 on a first server start answered with two project.json projects and
    three MSBuild projects. *)
Lemma telemetry_measures_witness :
  awaiting 22
    (pending (after targetsNetCoreApp "omnisharp-metadata" freshHost [ServerStart "ready"]))
  = Some (TelemetryThen ∅) /\
  calls
    (step targetsNetCoreApp "omnisharp-metadata"
       (WorkspaceInformationSettled 22 (Fulfilled mixedProjects)))
    (after targetsNetCoreApp "omnisharp-metadata" freshHost [ServerStart "ready"])
  = [SendTelemetryEvent "OmniSharp.Start"
       {[ "projectjson.projectcount" := 2; "projectjson.filecount" := 1;
          "msbuild.projectcount" := 3; "msbuild.filecount" := 3;
          "msbuild.unityprojectcount" := 1; "msbuild.netcoreprojectcount" := 2 ]}].
Proof.
  assert (Hpending :
            awaiting 22
              (pending (after targetsNetCoreApp "omnisharp-metadata" freshHost
                          [ServerStart "ready"]))
            = Some (TelemetryThen ∅))
    by (vm_compute; reflexivity).
  split; [exact Hpending|].
  destruct (telemetry_measures targetsNetCoreApp "omnisharp-metadata" freshHost
              [ServerStart "ready"] 22 ∅ mixedProjects) as (Hsent & _).
  rewrite (Hsent Hpending). vm_compute. reflexivity.
Defined.

(** C4 on a first server start answered with two project.json projects:
    the request of the warning listener is pending, and the warning is
    shown. *)
Lemma migration_warning_witness :
  awaiting 21
    (pending (after targetsNetCoreApp "omnisharp-metadata" freshHost [ServerStart "ready"]))
  = Some ProjectJsonWarningThen /\
  calls
    (step targetsNetCoreApp "omnisharp-metadata"
       (WorkspaceInformationSettled 21 (Fulfilled mixedProjects)))
    (after targetsNetCoreApp "omnisharp-metadata" freshHost [ServerStart "ready"])
  = [ShowWarningMessage 23 shortMessage "More Detail"].
Proof.
  assert (Hpending :
            awaiting 21
              (pending (after targetsNetCoreApp "omnisharp-metadata" freshHost
                          [ServerStart "ready"]))
            = Some ProjectJsonWarningThen)
    by (vm_compute; reflexivity).
  split; [exact Hpending|].
  destruct (migration_warning targetsNetCoreApp "omnisharp-metadata" freshHost
              [ServerStart "ready"]) as (_ & _ & _ & Hshown & _).
  rewrite (Hshown 21 mixedProjects Hpending). vm_compute. reflexivity.
Defined.

(** C5 on a workspace with a key of its own: the first server start leaves
    the asset pipeline pending; when it is fulfilled with [Disable], [true]
    is stored under 'assetPromptDisabled', the path stored before the start
    is still there and the key of the workspace keeps its value. *)
Lemma workspaceState_writes_witness :
  Js.truthy (persisted plainHost !! "assetPromptDisabled") = false /\
  awaiting 18
    (pending
       (after targetsNetCoreApp "omnisharp-metadata" plainHost
          [BeforeServerStart "/work"; ServerStart "ready"]))
  = Some AssetsThen /\
  "userKey" <> "lastSolutionPathOrFolder" /\
  "userKey" <> "assetPromptDisabled" /\
  (exists p,
     AddAssetsIfNecessary p
       ∈ calls (step targetsNetCoreApp "omnisharp-metadata" (ServerStart "ready"))
           (after targetsNetCoreApp "omnisharp-metadata" plainHost
              [BeforeServerStart "/work"]) /\
     awaiting p
       (pending
          (exec (step targetsNetCoreApp "omnisharp-metadata" (ServerStart "ready"))
             (after targetsNetCoreApp "omnisharp-metadata" plainHost
                [BeforeServerStart "/work"])))
     = Some AssetsThen) /\
  workspaceState
    (exec
       (step targetsNetCoreApp "omnisharp-metadata"
          (AssetsSettled 18 (Fulfilled Disable)))
       (after targetsNetCoreApp "omnisharp-metadata" plainHost
          [BeforeServerStart "/work"; ServerStart "ready"]))
  = {[ "assetPromptDisabled" := Js.Bool true;
       "lastSolutionPathOrFolder" := Js.Str "/work";
       "userKey" := Js.Num 7 ]} /\
  workspaceState
    (exec
       (step targetsNetCoreApp "omnisharp-metadata"
          (AssetsSettled 18 (Fulfilled Disable)))
       (after targetsNetCoreApp "omnisharp-metadata" plainHost
          [BeforeServerStart "/work"; ServerStart "ready"]))
    !! "userKey"
  = Some (Js.Num 7).
Proof.
  assert (Hasked : Js.truthy (persisted plainHost !! "assetPromptDisabled") = false)
    by (vm_compute; reflexivity).
  assert (Hpending :
            awaiting 18
              (pending
                 (after targetsNetCoreApp "omnisharp-metadata" plainHost
                    [BeforeServerStart "/work"; ServerStart "ready"]))
            = Some AssetsThen)
    by (vm_compute; reflexivity).
  assert (Hlast : "userKey" <> "lastSolutionPathOrFolder") by discriminate.
  assert (Hassets : "userKey" <> "assetPromptDisabled") by discriminate.
  split; [exact Hasked|]. split; [exact Hpending|].
  split; [exact Hlast|]. split; [exact Hassets|].
  split.
  { destruct (workspaceState_writes targetsNetCoreApp "omnisharp-metadata" plainHost
                [BeforeServerStart "/work"] ServerStop)
      as (_ & _ & _ & _ & _ & _ & Hstart & _).
    exact (proj2 (Hstart "ready") Hasked). }
  destruct (workspaceState_writes targetsNetCoreApp "omnisharp-metadata" plainHost
              [BeforeServerStart "/work"; ServerStart "ready"]
              (AssetsSettled 18 (Fulfilled Disable)))
    as (_ & _ & _ & _ & _ & Hframe & _ & Hstored).
  split.
  - rewrite (Hstored 18 Disable Hpending). vm_compute. reflexivity.
  - rewrite (Hframe "userKey" Hlast Hassets). vm_compute. reflexivity.
Defined.

(** * Where the specification and the code part *)

(** C2, as stated, fails: when the server starts twice and both requests
    of the telemetry listener are fulfilled, 'OmniSharp.Start' is sent
    twice within the same activation. *)
Lemma telemetry_sent_twice :
  ~ (countIf isTelemetryStart
       (history targetsNetCoreApp "omnisharp-metadata" freshHost twoStarts) <= 1).
Proof. vm_compute. lia. Qed.

(** C6, as stated, fails: with [options.useFormatting] unset, a server
    start registers no formatting provider. *)
Lemma formatting_not_registered :
  ~ (exists h r,
       RegisterProvider h r
         ∈ calls (step targetsNetCoreApp "omnisharp-metadata" (ServerStart "ready"))
             (after targetsNetCoreApp "omnisharp-metadata" plainHost []) /\
       isFormatting r = true).
Proof.
  intros (h & r & Hin & Hformatting). vm_compute in Hin.
  repeat (apply elem_of_cons in Hin as [Hin|Hin];
          [try discriminate; injection Hin as -> ->; discriminate|]).
  by apply elem_of_nil in Hin.
Qed.

(** * The further properties at work on sample runs *)

(** X1 before any server start: a stop disposes nothing. *)
Lemma localDisposables_size_witness :
  countIf isServerStart [BeforeServerStart "/work"] = 0 /\
  calls (step targetsNetCoreApp "omnisharp-metadata" ServerStop)
    (after targetsNetCoreApp "omnisharp-metadata" freshHost [BeforeServerStart "/work"])
  = [].
Proof.
  assert (Hnone : countIf isServerStart [BeforeServerStart "/work"] = 0) by reflexivity.
  split; [exact Hnone|].
  destruct (localDisposables_size targetsNetCoreApp "omnisharp-metadata" freshHost
              [BeforeServerStart "/work"] ServerStop) as (_ & _ & Hstop & _).
  exact (Hstop Hnone).
Defined.

(** X3 when the user dismisses the warning without choosing an item. *)
Lemma warning_detail_whatever_item_witness :
  awaiting 21
    (pending (after targetsNetCoreApp "omnisharp-metadata" freshHost [ServerStart "ready"]))
  = Some ProjectJsonWarningThen /\
  hasProjectJson mixedProjects = true /\
  calls
    (step targetsNetCoreApp "omnisharp-metadata" (WarningMessageSettled 23 (Fulfilled None)))
    (exec
       (step targetsNetCoreApp "omnisharp-metadata"
          (WorkspaceInformationSettled 21 (Fulfilled mixedProjects)))
       (after targetsNetCoreApp "omnisharp-metadata" freshHost [ServerStart "ready"]))
  = [ChannelAppendLine detailedMessage; ChannelShow].
Proof.
  assert (Hpending :
            awaiting 21
              (pending (after targetsNetCoreApp "omnisharp-metadata" freshHost
                          [ServerStart "ready"]))
            = Some ProjectJsonWarningThen)
    by (vm_compute; reflexivity).
  assert (Hinfo : hasProjectJson mixedProjects = true) by reflexivity.
  split; [exact Hpending|]. split; [exact Hinfo|].
  destruct (warning_detail_whatever_item targetsNetCoreApp "omnisharp-metadata" freshHost
              [ServerStart "ready"] 21 mixedProjects None "closed" Hpending Hinfo)
    as (_ & Hdetail & _).
  replace 23
    with (nextHandle (after targetsNetCoreApp "omnisharp-metadata" freshHost
                        [ServerStart "ready"]))
    by (vm_compute; reflexivity).
  exact Hdetail.
Defined.

(** X4 on a workspace with project.json projects: the warning has been
    shown after the first server start, and the second server start makes a
    request whose answer shows it again. *)
Lemma warnings_bounded_by_starts_witness :
  Js.truthy (csharpConfig freshHost !! "suppressProjectJsonWarning") = false /\
  hasProjectJson mixedProjects = true /\
  countIf isShowWarning
    (history targetsNetCoreApp "omnisharp-metadata" freshHost
       [ServerStart "ready"; WorkspaceInformationSettled 21 (Fulfilled mixedProjects)])
  = 1 /\
  exists p,
    awaiting p
      (pending
         (exec (step targetsNetCoreApp "omnisharp-metadata" (ServerStart "again"))
            (after targetsNetCoreApp "omnisharp-metadata" freshHost
               [ServerStart "ready";
                WorkspaceInformationSettled 21 (Fulfilled mixedProjects)])))
    = Some ProjectJsonWarningThen /\
    calls
      (step targetsNetCoreApp "omnisharp-metadata"
         (WorkspaceInformationSettled p (Fulfilled mixedProjects)))
      (exec (step targetsNetCoreApp "omnisharp-metadata" (ServerStart "again"))
         (after targetsNetCoreApp "omnisharp-metadata" freshHost
            [ServerStart "ready";
             WorkspaceInformationSettled 21 (Fulfilled mixedProjects)]))
    = [ShowWarningMessage 47 shortMessage "More Detail"].
Proof.
  assert (Hshown :
            Js.truthy (csharpConfig freshHost !! "suppressProjectJsonWarning") = false)
    by (vm_compute; reflexivity).
  assert (Hinfo : hasProjectJson mixedProjects = true) by reflexivity.
  split; [exact Hshown|]. split; [exact Hinfo|].
  split; [vm_compute; reflexivity|].
  destruct (warnings_bounded_by_starts targetsNetCoreApp "omnisharp-metadata" freshHost
              [ServerStart "ready";
               WorkspaceInformationSettled 21 (Fulfilled mixedProjects)])
    as (_ & Hagain & _).
  destruct (Hagain "again" mixedProjects Hshown Hinfo) as (p & _ & Hp & Hcalls).
  exists p. split; [exact Hp|].
  rewrite Hcalls. vm_compute. reflexivity.
Defined.

(** X5 after the user has answered [Disable]: a second start whose asset
    pipeline is cancelled leaves the key truthy. *)
Lemma assetPromptDisabled_never_reset_witness :
  Js.truthy
    (workspaceState
       (after targetsNetCoreApp "omnisharp-metadata" freshHost
          [ServerStart "ready"; AssetsSettled 20 (Fulfilled Disable)])
     !! "assetPromptDisabled") = true /\
  Js.truthy
    (workspaceState
       (after targetsNetCoreApp "omnisharp-metadata" freshHost
          ([ServerStart "ready"; AssetsSettled 20 (Fulfilled Disable)]
           ++ [ServerStart "again"; AssetsSettled 43 (Fulfilled Cancelled)]))
     !! "assetPromptDisabled") = true.
Proof.
  assert (Hdisabled :
            Js.truthy
              (workspaceState
                 (after targetsNetCoreApp "omnisharp-metadata" freshHost
                    [ServerStart "ready"; AssetsSettled 20 (Fulfilled Disable)])
               !! "assetPromptDisabled") = true)
    by (vm_compute; reflexivity).
  split; [exact Hdisabled|].
  destruct (assetPromptDisabled_never_reset targetsNetCoreApp "omnisharp-metadata"
              freshHost [ServerStart "ready"; AssetsSettled 20 (Fulfilled Disable)]
              [ServerStart "again"; AssetsSettled 43 (Fulfilled Cancelled)] 0)
    as (Hkept & _).
  exact (Hkept Hdisabled).
Defined.

(** X6 after the user has answered [Disable]: the same activation runs
    the asset pipeline again at the next start, the next activation does
    not. *)
Lemma disable_applies_to_next_activation_witness :
  Js.truthy (persisted freshHost !! "assetPromptDisabled") = false /\
  Js.truthy
    (workspaceState
       (after targetsNetCoreApp "omnisharp-metadata" freshHost
          [ServerStart "ready"; AssetsSettled 20 (Fulfilled Disable)])
     !! "assetPromptDisabled") = true /\
  countIf isAddAssets
    (calls (step targetsNetCoreApp "omnisharp-metadata" (ServerStart "again"))
       (after targetsNetCoreApp "omnisharp-metadata" freshHost
          [ServerStart "ready"; AssetsSettled 20 (Fulfilled Disable)])) = 1 /\
  countIf isAddAssets
    (history targetsNetCoreApp "omnisharp-metadata"
       (reactivated freshHost
          (workspaceState
             (after targetsNetCoreApp "omnisharp-metadata" freshHost
                [ServerStart "ready"; AssetsSettled 20 (Fulfilled Disable)])))
       [ServerStart "ready"]) = 0.
Proof.
  assert (Hasked : Js.truthy (persisted freshHost !! "assetPromptDisabled") = false)
    by (vm_compute; reflexivity).
  assert (Hdisabled :
            Js.truthy
              (workspaceState
                 (after targetsNetCoreApp "omnisharp-metadata" freshHost
                    [ServerStart "ready"; AssetsSettled 20 (Fulfilled Disable)])
               !! "assetPromptDisabled") = true)
    by (vm_compute; reflexivity).
  split; [exact Hasked|]. split; [exact Hdisabled|].
  destruct (disable_applies_to_next_activation targetsNetCoreApp "omnisharp-metadata"
              freshHost [ServerStart "ready"; AssetsSettled 20 (Fulfilled Disable)]
              [ServerStart "ready"] "again") as (Hsame & Hnext).
  split; [exact (Hsame Hasked)|].
  exact (proj2 (Hnext Hdisabled)).
Defined.

(** X8 on a response with three MSBuild projects, one of them a Unity
    project and two of them .NET Core projects. *)
Lemma measures_shape_witness :
  fillMeasures targetsNetCoreApp ∅ mixedProjects !! "msbuild.projectcount" = Some 3 /\
  exists unity netcore,
    fillMeasures targetsNetCoreApp ∅ mixedProjects !! "msbuild.unityprojectcount"
      = Some unity /\
    fillMeasures targetsNetCoreApp ∅ mixedProjects !! "msbuild.netcoreprojectcount"
      = Some netcore /\
    unity <= 3 /\ netcore <= 3.
Proof.
  assert (Hcount :
            fillMeasures targetsNetCoreApp ∅ mixedProjects !! "msbuild.projectcount"
            = Some 3)
    by (vm_compute; reflexivity).
  split; [exact Hcount|].
  destruct (measures_shape targetsNetCoreApp mixedProjects 3) as (_ & Hmsbuild & _).
  exact (proj2 (Hmsbuild Hcount)).
Defined.

(** X11 on the telemetry event of a first server start. *)
Lemma telemetry_carries_one_response_witness :
  SendTelemetryEvent "OmniSharp.Start" (fillMeasures targetsNetCoreApp ∅ mixedProjects)
    ∈ calls
        (step targetsNetCoreApp "omnisharp-metadata"
           (WorkspaceInformationSettled 22 (Fulfilled mixedProjects)))
        (after targetsNetCoreApp "omnisharp-metadata" freshHost [ServerStart "ready"]) /\
  exists p info,
    WorkspaceInformationSettled 22 (Fulfilled mixedProjects)
    = WorkspaceInformationSettled p (Fulfilled info) /\
    awaiting p
      (pending (after targetsNetCoreApp "omnisharp-metadata" freshHost [ServerStart "ready"]))
    = Some (TelemetryThen ∅) /\
    fillMeasures targetsNetCoreApp ∅ mixedProjects = fillMeasures targetsNetCoreApp ∅ info.
Proof.
  assert (Hsent :
            SendTelemetryEvent "OmniSharp.Start"
              (fillMeasures targetsNetCoreApp ∅ mixedProjects)
            ∈ calls
                (step targetsNetCoreApp "omnisharp-metadata"
                   (WorkspaceInformationSettled 22 (Fulfilled mixedProjects)))
                (after targetsNetCoreApp "omnisharp-metadata" freshHost
                   [ServerStart "ready"]))
    by (vm_compute; repeat constructor).
  split; [exact Hsent|].
  exact (proj2 (telemetry_carries_one_response targetsNetCoreApp "omnisharp-metadata"
                  freshHost [ServerStart "ready"] _ _ _ Hsent)).
Defined.
